(** * Cloudflare DNS/security baseline: the deployment scripts, embedded

    A shallow embedding of the six deployment scripts
    ([deploy_cache_rules.py], [deploy_securityrules.py],
    [deploy_rate_limiting.py], [deploy_dns_sec_settings.py],
    [deploy_sec_settings.py], [deploy_speed.py]) together with the properties
    their specification states about them.

    Each script is a Python program that talks to the Cloudflare API through
    the [requests] library.  The embedding keeps that shape:

    - Python values that come out of [response.json()] are values of [json];
      [None] is [JNull];
    - a script runs in the monad [Py]: it reads the remote system (an
      arbitrary function of the conversation so far), appends every request
      it issues to the wire log, and either returns or raises a Python
      exception;
    - [try]/[except] is [try_except]; [sys.exit(c)] raises [SystemExit c];
      an exception nobody catches ends the process with status 1, as the
      interpreter does.

    Console output is not modelled, with one exception: the line that
    reports the tally ("Successfully added/updated s of n ...") is recorded,
    because the specification speaks about the tally.  Expressions that
    only feed a [print] and cannot raise ([rule_payload.get("description",
    ...)], [payload.get('value')] on dict literals, [json.dumps]) are left
    out; those that can raise (the debugging block of the firewall
    Locator) are kept.

    A response may carry a body that is empty or not JSON (a 204, an HTML
    error page): [response.json()] then raises
    [requests.exceptions.JSONDecodeError], which is a [RequestException]
    and so falls into the second [except] clause.  The
    [print(json.dumps(response.json(), indent=4))] on the success path of
    every write function is kept for that reason, as the call
    [response_json]. *)

From stdpp Require Import base strings list gmap.

Open Scope Z_scope.

(* ===================================================================== *)
(** ** Python values *)
(* ===================================================================== *)

(** What [response.json()] returns.  Numbers are integer literals only: the
    scripts never compute with a number taken from a response. *)
#[local] Unset Elimination Schemes.
Inductive json : Type :=
  | JNull
  | JBool (b : bool)
  | JNum (n : Z)
  | JStr (s : string)
  | JArr (items : list json)
  | JObj (items : list (string * json)).
#[local] Set Elimination Schemes.

(** A Python [dict] with string keys, as its list of items.  A dict holds
    one value per key; [dict_get] reads the first binding. *)
Definition dict : Type := list (string * json).

Fixpoint dict_get (d : dict) (key : string) : option json :=
  match d with
  | [] => None
  | (k, v) :: rest => if String.eqb k key then Some v else dict_get rest key
  end.

(** [bool(v)]: the truth value Python gives to [v] in [if v:]. *)
Definition py_truthy (v : json) : bool :=
  match v with
  | JNull => false
  | JBool b => b
  | JNum n => negb (n =? 0)
  | JStr s => negb (String.eqb s "")
  | JArr items => negb (Nat.eqb (length items) 0)
  | JObj items => negb (Nat.eqb (length items) 0)
  end.

(** [v == 'literal'] for a string literal: only a [str] with the same
    characters compares equal. *)
Definition py_eq_str (v : json) (literal : string) : bool :=
  match v with
  | JStr s => String.eqb s literal
  | _ => false
  end.

(** The double quote character, for rule expressions that contain it. *)
Definition dq : string := String (Ascii.ascii_of_nat 34) EmptyString.

Definition quoted (s : string) : string := (dq +:+ s +:+ dq)%string.

(* ===================================================================== *)
(** ** The wire: requests, responses, the remote system *)
(* ===================================================================== *)

Inductive method : Type := GET | POST | PUT | PATCH.

(** The URLs the scripts build.  Each constructor stands for one f-string
    under [https://api.cloudflare.com/client/v4]; its arguments are the
    interpolated values. *)
Inductive endpoint : Type :=
  | zone_rulesets (zone_id : string)
      (* /zones/{zone_id}/rulesets *)
  | ruleset_rules (zone_id : string) (ruleset_id : json)
      (* /zones/{zone_id}/rulesets/{ruleset_id}/rules *)
  | phase_entrypoint (zone_id : string) (phase : string)
      (* /zones/{zone_id}/rulesets/phases/{phase}/entrypoint *)
  | zone_setting (zone_id : string) (setting_name : string)
      (* /zones/{zone_id}/settings/{setting_name} *)
  | zone_dnssec (zone_id : string)
      (* /zones/{zone_id}/dnssec *)
  | zone_page_shield (zone_id : string)
      (* /zones/{zone_id}/page_shield *)
  | zone_bot_management (zone_id : string).
      (* /zones/{zone_id}/bot_management *)

Definition headers_t : Type := list (string * string).

Record request : Type := Request {
  req_method : method;
  req_url : endpoint;
  req_headers : headers_t;
  req_json : option json
}.

(** A response whose body is a JSON document: its status and the decoded
    body. *)
Record response : Type := Response {
  status_code : Z;
  body : json
}.

(** What the remote system does with a request: it answers with a JSON
    body; it answers with a body that is empty or not JSON (a 204 No
    Content, an HTML page), of which only the status matters; or no
    response arrives at all (DNS, connection, TLS failure). *)
Inductive reply : Type :=
  | Answered (r : response)
  | Garbled (status : Z)
  | Unreachable.

Record exchange : Type := Exchange {
  sent : request;
  got : reply
}.

(** The remote system.  It is outside the program, so it is a parameter of
    every run: any function from the conversation so far and the next
    request to a reply. *)
Definition remote : Type := list exchange → request → reply.

(** The statuses for which [Response.raise_for_status] raises
    [HTTPError]: 4xx and 5xx, and nothing else. *)
Definition error_status (status : Z) : bool :=
  (400 <=? status) && (status <? 600).

Definition is_http_error (r : response) : bool :=
  (400 <=? status_code r) && (status_code r <? 600).

(** A request the remote system turned down: no response, or a response
    with an error status. *)
Definition rejected (a : reply) : bool :=
  match a with
  | Answered r => is_http_error r
  | Garbled status => error_status status
  | Unreachable => true
  end.

Definition accepted (a : reply) : bool := negb (rejected a).

(** A reply a write function of the scripts reports as a success: a
    response with a status that is no error status and with a body that
    decodes. *)
Definition reported_success (a : reply) : bool :=
  match a with
  | Answered r => negb (is_http_error r)
  | Garbled _ => false
  | Unreachable => false
  end.

(** The [requests.Response] object a call hands to the script: its
    status, and what [.json()] returns ([None] when [.json()] raises). *)
Record received : Type := Received {
  rcv_status : Z;
  rcv_json : option json
}.

Definition arrived (a : reply) : option received :=
  match a with
  | Answered r => Some (Received (status_code r) (Some (body r)))
  | Garbled status => Some (Received status None)
  | Unreachable => None
  end.

(* ===================================================================== *)
(** ** The process: exceptions, state, the [Py] monad *)
(* ===================================================================== *)

Inductive exn : Type :=
  | HTTPError (r : received)   (* requests.exceptions.HTTPError *)
  | JSONDecodeError            (* requests.exceptions.JSONDecodeError, a RequestException *)
  | RequestException           (* any other requests.exceptions.RequestException *)
  | AttributeError             (* [.get] on a value that is not a dict *)
  | TypeError                  (* [for] over a value that is not iterable *)
  | SystemExit (code : Z).     (* sys.exit(code) *)

(** The tally a script prints when its batch is over. *)
Record Tally : Type := mkTally {
  succeeded : nat;
  attempted : nat
}.

Record process : Type := Process {
  wire : list exchange;   (* every request issued so far, with its reply *)
  stdout : list Tally     (* the tally lines printed so far *)
}.

Definition start : process := {| wire := []; stdout := [] |}.

Inductive outcome (A : Type) : Type :=
  | Returned (a : A)
  | Raised (e : exn).
Arguments Returned {A} a.
Arguments Raised {A} e.

Definition Py (A : Type) : Type := remote → process → outcome A * process.
#[global] Typeclasses Opaque Py.

#[global] Instance Py_ret : MRet Py := λ A a, λ _ p, (Returned a, p).

#[global] Instance Py_bind : MBind Py := λ A B f m, λ R p,
  match m R p with
  | (Returned a, p') => f a R p'
  | (Raised e, p') => (Raised e, p')
  end.

Definition raise {A : Type} (e : exn) : Py A := λ _ p, (Raised e, p).

(** [try: body / except ...: handler].  [handler e = None] when no
    [except] clause matches [e], which then propagates. *)
Definition try_except {A : Type} (body : Py A) (handler : exn → option (Py A)) : Py A :=
  λ R p,
  match body R p with
  | (Returned a, p') => (Returned a, p')
  | (Raised e, p') =>
      match handler e with
      | Some h => h R p'
      | None => (Raised e, p')
      end
  end.

Definition sys_exit {A : Type} (code : Z) : Py A := raise (SystemExit code).

(** One blocking call of [requests.<verb>(url, headers=..., json=...)]. *)
Definition requests_call (q : request) : Py received := λ R p,
  let a := R (wire p) q in
  let p' := {| wire := wire p ++ [{| sent := q; got := a |}]; stdout := stdout p |} in
  match arrived a with
  | Some response => (Returned response, p')
  | None => (Raised RequestException, p')
  end.

Definition requests_get (url : endpoint) (headers : headers_t) : Py received :=
  requests_call (Request GET url headers None).
Definition requests_post (url : endpoint) (headers : headers_t) (payload : json) : Py received :=
  requests_call (Request POST url headers (Some payload)).
Definition requests_put (url : endpoint) (headers : headers_t) (payload : json) : Py received :=
  requests_call (Request PUT url headers (Some payload)).
Definition requests_patch (url : endpoint) (headers : headers_t) (payload : json) : Py received :=
  requests_call (Request PATCH url headers (Some payload)).

Definition raise_for_status (response : received) : Py unit :=
  if error_status (rcv_status response) then raise (HTTPError response) else mret tt.

(** [response.json()]: the decoded body, or [JSONDecodeError]. *)
Definition response_json (response : received) : Py json :=
  match rcv_json response with
  | Some data => mret data
  | None => raise JSONDecodeError
  end.

(** [v.get(key)] and [v.get(key, default)]: only a dict has [get]. *)
Definition py_get (v : json) (key : string) (default : json) : Py json :=
  match v with
  | JObj d => mret (from_option id default (dict_get d key))
  | _ => raise AttributeError
  end.

(** The items a [for x in v] loop visits: the elements of a list, the keys
    of a dict, the characters of a string; anything else is not iterable. *)
Definition py_iter (v : json) : Py (list json) :=
  match v with
  | JArr items => mret items
  | JObj items => mret (map (λ kv, JStr (fst kv)) items)
  | JStr s => mret (map (λ c, JStr (String c EmptyString)) (String.list_ascii_of_string s))
  | _ => raise TypeError
  end.

(** The line that reports the tally. *)
Definition print_tally (success_count total : nat) : Py unit := λ _ p,
  (Returned tt, {| wire := wire p;
                   stdout := stdout p ++ [mkTally success_count total] |}).

(** The counting loop every batch script has:
<<
    for x in xs:
        if f(x):
            success_count += 1
>> *)
Fixpoint count_successes {A : Type} (f : A → Py bool) (xs : list A) (success_count : nat)
  : Py nat :=
  match xs with
  | [] => mret success_count
  | x :: rest =>
      ok ← f x;
      count_successes f rest (if ok : bool then S success_count else success_count)
  end.

(** [os.environ], and the test [not value] on what [os.environ.get] gives. *)
Definition not_set (value : option string) : bool :=
  match value with
  | None => true
  | Some s => String.eqb s ""
  end.

(** The same [headers] dict in every script. *)
Definition make_headers (api_token : string) : headers_t :=
  [("Authorization", "Bearer " +:+ api_token); ("Content-Type", "application/json")]%string.

(** The exit status of the process that runs [main] against remote [R]:
    0 when [main] returns, [c] on [sys.exit(c)], 1 when an exception
    reaches the top level. *)
Definition exit_status {A : Type} (o : outcome A) : Z :=
  match o with
  | Returned _ => 0
  | Raised (SystemExit c) => c
  | Raised _ => 1
  end.

Definition run_script (main : Py unit) (R : remote) : Z * process :=
  let '(o, p) := main R start in (exit_status o, p).

(** The two [except] clauses every function of the scripts ends with:
<<
    except requests.exceptions.HTTPError as errh:  ...; return failure
    except requests.exceptions.RequestException as err:  ...; return failure
>>
    Nothing else is caught. *)
Definition except_requests {A : Type} (failure : A) (e : exn) : option (Py A) :=
  match e with
  | HTTPError _ => Some (mret failure)
  | JSONDecodeError | RequestException => Some (mret failure)
  | AttributeError | TypeError | SystemExit _ => None
  end.

(* ===================================================================== *)
(** ** deploy_cache_rules.py *)
(* ===================================================================== *)

Module deploy_cache_rules.

Definition phase : string := "http_request_cache_settings".
Definition ruleset_name : string := "Default Cache Settings Ruleset".

Definition create_payload : json :=
  JObj [("name", JStr ruleset_name);
        ("description", JStr "Default ruleset for custom cache settings, created via API");
        ("kind", JStr "zone");
        ("phase", JStr phase)]%string.

(** The loop of [find_or_create_cache_ruleset]:
<<
    for ruleset in rulesets:
        if ruleset.get('kind') == 'zone' and ruleset.get('phase') == phase:
            ruleset_id = ruleset.get('id')
            return ruleset_id
>>
    [Some v]: the function returned [v] from inside the loop; [None]: the
    loop ran to its end. *)
Fixpoint scan_rulesets (rulesets : list json) : Py (option json) :=
  match rulesets with
  | [] => mret None
  | ruleset :: rest =>
      kind ← py_get ruleset "kind" JNull;
      hit ← (if py_eq_str kind "zone"
             then ph ← py_get ruleset "phase" JNull; mret (py_eq_str ph phase)
             else mret false);
      if hit : bool
      then ruleset_id ← py_get ruleset "id" JNull; mret (Some ruleset_id)
      else scan_rulesets rest
  end.

(** [find_or_create_cache_ruleset]: the whole body is one [try] block with
    the two [except] clauses, both of which return [None]. *)
Definition find_or_create_cache_ruleset (zone_id : string) (headers : headers_t)
  : Py json :=
  let find_url := zone_rulesets zone_id in
  try_except
    (response ← requests_get find_url headers;
     raise_for_status response;;
     data ← response_json response;
     rulesets ← py_get data "result" (JArr []);
     items ← py_iter rulesets;
     found ← scan_rulesets items;
     match found with
     | Some ruleset_id => mret ruleset_id
     | None =>
         let create_url := zone_rulesets zone_id in
         create_response ← requests_post create_url headers create_payload;
         raise_for_status create_response;;
         created ← response_json create_response;
         new_ruleset ← py_get created "result" (JObj []);
         new_ruleset_id ← py_get new_ruleset "id" JNull;
         if py_truthy new_ruleset_id then mret new_ruleset_id else mret JNull
     end)
    (except_requests JNull).

(** The request [add_rule_to_ruleset] issues for one rule. *)
Definition add_rule_request (zone_id : string) (ruleset_id : json) (headers : headers_t)
    (rule_payload : dict) : request :=
  Request POST (ruleset_rules zone_id ruleset_id) headers (Some (JObj rule_payload)).

(** [add_rule_to_ruleset]: one POST of the rule on the ruleset's [/rules];
    [True] when [raise_for_status] passes and [response.json()] (printed
    inside the [try]) decodes, [False] from either [except] clause. *)
Definition add_rule_to_ruleset (zone_id : string) (ruleset_id : json) (headers : headers_t)
    (rule_payload : dict) : Py bool :=
  let url := ruleset_rules zone_id ruleset_id in
  try_except
    (response ← requests_post url headers (JObj rule_payload);
     raise_for_status response;;
     response_json response;;
     mret true)
    (except_requests false).

Definition path_contains (s : string) : string :=
  ("(http.request.uri.path contains " +:+ quoted s +:+ ")")%string.

Definition bypass_admin_rule : dict :=
  [("description", JStr "Bypass Cache for Admin Areas");
   ("action", JStr "set_cache_settings");
   ("action_parameters", JObj [("cache", JBool false)]);
   ("expression", JStr (path_contains "/wp-admin" +:+ " or " +:+ path_contains "/admin"))]%string.

Definition bypass_login_rule : dict :=
  [("description", JStr "Bypass Cache for User Login and Portal Pages");
   ("action", JStr "set_cache_settings");
   ("action_parameters", JObj [("cache", JBool false)]);
   ("expression",
    JStr (path_contains "/login" +:+ " or " +:+
          path_contains "/signin" +:+ " or " +:+
          path_contains "/dashboard" +:+ " or " +:+
          path_contains "/portal" +:+ " or " +:+
          path_contains "/user" +:+ " or " +:+
          path_contains "/account" +:+ " or " +:+
          path_contains "/clientarea"))]%string.

Definition rules_to_add : list dict := [bypass_admin_rule; bypass_login_rule].

(** [main], with the list [rules_to_add] as a parameter. *)
Definition main_over (rules_to_add : list dict) (environ : gmap string string) : Py unit :=
  let api_token := environ !! "CLOUDFLARE_API_TOKEN" in
  let zone_id := environ !! "ZONE_ID" in
  if not_set api_token || not_set zone_id then sys_exit 1 else
  let api_token := default EmptyString api_token in
  let zone_id := default EmptyString zone_id in
  let headers := make_headers api_token in
  ruleset_id ← find_or_create_cache_ruleset zone_id headers;
  if py_truthy ruleset_id then
    success_count ← count_successes (add_rule_to_ruleset zone_id ruleset_id headers)
                                    rules_to_add 0%nat;
    print_tally success_count (length rules_to_add);;
    if (success_count <? length rules_to_add)%nat then sys_exit 1 else mret tt
  else
    sys_exit 1.

Definition main : gmap string string → Py unit := main_over rules_to_add.

End deploy_cache_rules.

(* ===================================================================== *)
(** ** deploy_securityrules.py *)
(* ===================================================================== *)

Module deploy_securityrules.

Definition phase : string := "http_request_firewall_custom".

(** The debugging block: it only prints, but it reads every listed
    ruleset with [.get] first.
<<
    if not rulesets: print(...)
    else:
        for i, ruleset in enumerate(rulesets):
            print(ruleset.get('id')) ... ('name') ... ('kind') ... ('phase')
>> *)
Fixpoint debug_print (rulesets : list json) : Py unit :=
  match rulesets with
  | [] => mret tt
  | ruleset :: rest =>
      py_get ruleset "id" JNull;;
      py_get ruleset "name" JNull;;
      py_get ruleset "kind" JNull;;
      py_get ruleset "phase" JNull;;
      debug_print rest
  end.

Definition debug_block (rulesets : json) : Py unit :=
  if negb (py_truthy rulesets) then mret tt
  else items ← py_iter rulesets; debug_print items.

(** The loop of [find_firewall_ruleset_id]:
<<
    for ruleset in rulesets:
        if (ruleset.get('kind') == 'zone' and
            ruleset.get('phase') == 'http_request_firewall_custom'):
            ruleset_id = ruleset.get('id')
            return ruleset_id
>> *)
Fixpoint scan_rulesets (rulesets : list json) : Py (option json) :=
  match rulesets with
  | [] => mret None
  | ruleset :: rest =>
      kind ← py_get ruleset "kind" JNull;
      hit ← (if py_eq_str kind "zone"
             then ph ← py_get ruleset "phase" JNull; mret (py_eq_str ph phase)
             else mret false);
      if hit : bool
      then ruleset_id ← py_get ruleset "id" JNull; mret (Some ruleset_id)
      else scan_rulesets rest
  end.

(** [find_firewall_ruleset_id]: enumerate, print the debugging block,
    scan; when the loop ends without a match the function returns [None]
    (there is no creation step).  Both [except] clauses return [None]. *)
Definition find_firewall_ruleset_id (zone_id : string) (headers : headers_t) : Py json :=
  let url := zone_rulesets zone_id in
  try_except
    (response ← requests_get url headers;
     raise_for_status response;;
     data ← response_json response;
     rulesets ← py_get data "result" (JArr []);
     debug_block rulesets;;
     items ← py_iter rulesets;
     found ← scan_rulesets items;
     match found with
     | Some ruleset_id => mret ruleset_id
     | None => mret JNull
     end)
    (except_requests JNull).

Definition add_rule_request (zone_id : string) (ruleset_id : json) (headers : headers_t)
    (rule_payload : dict) : request :=
  Request POST (ruleset_rules zone_id ruleset_id) headers (Some (JObj rule_payload)).

(** [add_rule_to_ruleset]: one POST of the rule on the ruleset's [/rules];
    [True] when [raise_for_status] passes and [response.json()] (printed
    inside the [try]) decodes, [False] from either [except] clause. *)
Definition add_rule_to_ruleset (zone_id : string) (ruleset_id : json) (headers : headers_t)
    (rule_payload : dict) : Py bool :=
  let url := ruleset_rules zone_id ruleset_id in
  try_except
    (response ← requests_post url headers (JObj rule_payload);
     raise_for_status response;;
     response_json response;;
     mret true)
    (except_requests false).

Definition countries : list string :=
  ["AF"; "DZ"; "BY"; "BO"; "BQ"; "BW"; "TD"; "CN"; "DJ"; "EC"; "ER"; "GH"; "HN";
   "KP"; "KG"; "NA"; "RU"; "SO"; "SZ"; "SY"; "UA"; "YE"; "XX"; "TN"]%string.

Definition geo_block_rule : dict :=
  [("description", JStr "Block High-Risk Countries");
   ("action", JStr "block");
   ("expression",
    JStr ("(ip.src.country in { " +:+
          foldr (λ c acc, quoted c +:+ " " +:+ acc) EmptyString countries +:+ "})"))]%string.

Definition scanner_block_rule : dict :=
  [("description", JStr "Block High-Risk Scanners");
   ("action", JStr "block");
   ("expression",
    JStr ("(http.user_agent contains " +:+ quoted "nikto" +:+ ") or " +:+
          "(http.user_agent contains " +:+ quoted "sqlmap" +:+ ")"))]%string.

Definition rules_to_add : list dict := [geo_block_rule; scanner_block_rule].

(** [main], with the list [rules_to_add] as a parameter. *)
Definition main_over (rules_to_add : list dict) (environ : gmap string string) : Py unit :=
  let api_token := environ !! "CLOUDFLARE_API_TOKEN" in
  let zone_id := environ !! "ZONE_ID" in
  if not_set api_token || not_set zone_id then sys_exit 1 else
  let api_token := default EmptyString api_token in
  let zone_id := default EmptyString zone_id in
  let headers := make_headers api_token in
  ruleset_id ← find_firewall_ruleset_id zone_id headers;
  if py_truthy ruleset_id then
    success_count ← count_successes (add_rule_to_ruleset zone_id ruleset_id headers)
                                    rules_to_add 0%nat;
    print_tally success_count (length rules_to_add);;
    if (success_count <? length rules_to_add)%nat then sys_exit 1 else mret tt
  else
    sys_exit 1.

Definition main : gmap string string → Py unit := main_over rules_to_add.

End deploy_securityrules.

(* ===================================================================== *)
(** ** deploy_rate_limiting.py *)
(* ===================================================================== *)

Module deploy_rate_limiting.

Definition path_test (op : string) (s : string) : string :=
  ("(http.request.uri.path " +:+ op +:+ " " +:+ s +:+ ")")%string.

Definition expression : string :=
  (path_test "wildcard" ("r" +:+ quoted "/api/*") +:+ " or " +:+
   path_test "contains" (quoted "/login") +:+ " or " +:+
   path_test "contains" (quoted "/dashboard") +:+ " or " +:+
   path_test "contains" (quoted "/wp-login.php") +:+ " or " +:+
   path_test "eq" (quoted "/administrator") +:+ " or " +:+
   path_test "contains" (quoted "/index.php/admin/") +:+ " or " +:+
   path_test "contains" (quoted "/wp-admin/") +:+ " or " +:+
   path_test "wildcard" ("r" +:+ quoted "/rest/*") +:+ " or " +:+
   path_test "contains" (quoted "/checkout") +:+ " or " +:+
   path_test "contains" (quoted "/xmlrpc.php"))%string.

Definition payload : json :=
  JObj [("rules",
         JArr [JObj [("action", JStr "block");
                     ("description", JStr "Default Rate Limiting");
                     ("enabled", JBool true);
                     ("expression", JStr expression);
                     ("ratelimit",
                      JObj [("characteristics", JArr [JStr "ip.src"; JStr "cf.colo.id"]);
                            ("mitigation_timeout", JNum 10);
                            ("period", JNum 10);
                            ("requests_per_period", JNum 20)])]])]%string.

Definition deploy_request (zone_id : string) (headers : headers_t) : request :=
  Request PUT (phase_entrypoint zone_id "http_ratelimit") headers (Some payload).

(** [deploy_rate_limit_ruleset]: one PUT of [payload] on the entrypoint of
    phase [http_ratelimit]; the response is decoded inside the [try] before
    [True] is returned. *)
Definition deploy_rate_limit_ruleset (zone_id : string) (headers : headers_t) : Py bool :=
  let url := phase_entrypoint zone_id "http_ratelimit" in
  try_except
    (response ← requests_put url headers payload;
     raise_for_status response;;
     response_json response;;
     mret true)
    (except_requests false).

Definition main (environ : gmap string string) : Py unit :=
  let api_token := environ !! "CLOUDFLARE_API_TOKEN" in
  let zone_id := environ !! "ZONE_ID" in
  if not_set api_token || not_set zone_id then sys_exit 1 else
  let api_token := default EmptyString api_token in
  let zone_id := default EmptyString zone_id in
  let headers := make_headers api_token in
  ok ← deploy_rate_limit_ruleset zone_id headers;
  if negb ok then sys_exit 1 else mret tt.

End deploy_rate_limiting.

(* ===================================================================== *)
(** ** Zone settings: the entries of [settings_to_apply] *)
(* ===================================================================== *)

(** One entry of a settings list: a dict literal with exactly the keys
    [api_name], [friendly_name] and [payload], read by subscript. *)
Record setting : Type := Setting {
  api_name : string;
  friendly_name : string;
  payload : dict
}.

Definition value_on : dict := [("value", JStr "on")]%string.

(* ===================================================================== *)
(** ** deploy_dns_sec_settings.py *)
(* ===================================================================== *)

Module deploy_dns_sec_settings.

Definition update_zone_request (zone_id : string) (headers : headers_t) (s : setting)
  : request :=
  Request PATCH (zone_setting zone_id (api_name s)) headers (Some (JObj (payload s))).

(** [update_zone_setting]: one PATCH of the payload on the setting's own
    URL ([friendly_name] is used for logging only); the response is
    decoded inside the [try] before [True] is returned. *)
Definition update_zone_setting (zone_id : string) (headers : headers_t)
    (setting_name friendly_name : string) (payload : dict) : Py bool :=
  let url := zone_setting zone_id setting_name in
  try_except
    (response ← requests_patch url headers (JObj payload);
     raise_for_status response;;
     response_json response;;
     mret true)
    (except_requests false).

Definition dnssec_request (zone_id : string) (headers : headers_t) : request :=
  Request PATCH (zone_dnssec zone_id) headers (Some (JObj [("status", JStr "active")]%string)).

Definition update_dnssec_setting (zone_id : string) (headers : headers_t) : Py bool :=
  let url := zone_dnssec zone_id in
  let payload := JObj [("status", JStr "active")]%string in
  try_except
    (response ← requests_patch url headers payload;
     raise_for_status response;;
     response_json response;;
     mret true)
    (except_requests false).

Definition ssl_settings_to_apply : list setting :=
  [Setting "ssl" "SSL/TLS Mode" [("value", JStr "strict")];
   Setting "always_use_https" "Always Use HTTPS" value_on;
   Setting "min_tls_version" "Minimum TLS Version" [("value", JStr "1.2")];
   Setting "tls_1_3" "TLS 1.3" value_on;
   Setting "automatic_https_rewrites" "Automatic HTTPS Rewrites" value_on]%string.

(** [main], with the list [ssl_settings_to_apply] as a parameter. *)
Definition main_over (ssl_settings_to_apply : list setting) (environ : gmap string string)
  : Py unit :=
  let api_token := environ !! "CLOUDFLARE_API_TOKEN" in
  let zone_id := environ !! "ZONE_ID" in
  if not_set api_token || not_set zone_id then sys_exit 1 else
  let api_token := default EmptyString api_token in
  let zone_id := default EmptyString zone_id in
  let headers := make_headers api_token in
  let total_settings := (length ssl_settings_to_apply + 1)%nat in
  let success_count := 0%nat in
  ok ← update_dnssec_setting zone_id headers;
  let success_count := if ok : bool then S success_count else success_count in
  success_count ←
    count_successes
      (λ s, update_zone_setting zone_id headers (api_name s) (friendly_name s) (payload s))
      ssl_settings_to_apply success_count;
  print_tally success_count total_settings;;
  if (success_count <? total_settings)%nat then sys_exit 1 else mret tt.

Definition main : gmap string string → Py unit := main_over ssl_settings_to_apply.

End deploy_dns_sec_settings.

(* ===================================================================== *)
(** ** deploy_sec_settings.py *)
(* ===================================================================== *)

Module deploy_sec_settings.

Definition update_zone_request (zone_id : string) (headers : headers_t) (s : setting)
  : request :=
  Request PATCH (zone_setting zone_id (api_name s)) headers (Some (JObj (payload s))).

(** [update_zone_setting]: one PATCH of the payload on the setting's own
    URL ([friendly_name] is used for logging only); the response is
    decoded inside the [try] before [True] is returned. *)
Definition update_zone_setting (zone_id : string) (headers : headers_t)
    (setting_name friendly_name : string) (payload : dict) : Py bool :=
  let url := zone_setting zone_id setting_name in
  try_except
    (response ← requests_patch url headers (JObj payload);
     raise_for_status response;;
     response_json response;;
     mret true)
    (except_requests false).

Definition page_shield_payload : json :=
  JObj [("enabled", JBool true);
        ("use_cloudflare_reporting_endpoint", JBool true);
        ("use_connection_url_path", JBool true)]%string.

Definition page_shield_request (zone_id : string) (headers : headers_t) : request :=
  Request PUT (zone_page_shield zone_id) headers (Some page_shield_payload).

Definition update_page_shield_setting (zone_id : string) (headers : headers_t) : Py bool :=
  let url := zone_page_shield zone_id in
  let payload := page_shield_payload in
  try_except
    (response ← requests_put url headers payload;
     raise_for_status response;;
     response_json response;;
     mret true)
    (except_requests false).

Definition bot_fight_request (zone_id : string) (headers : headers_t) : request :=
  Request PUT (zone_bot_management zone_id) headers
          (Some (JObj [("fight_mode", JBool true)]%string)).

Definition update_bot_fight_mode (zone_id : string) (headers : headers_t) : Py bool :=
  let url := zone_bot_management zone_id in
  let payload := JObj [("fight_mode", JBool true)]%string in
  try_except
    (response ← requests_put url headers payload;
     raise_for_status response;;
     response_json response;;
     mret true)
    (except_requests false).

Definition standard_settings_to_apply : list setting :=
  [Setting "hcaptcha_pass" "AI Labyrinth (Turnstile)" value_on]%string.

(** [main], with the list [standard_settings_to_apply] as a parameter. *)
Definition main_over (standard_settings_to_apply : list setting)
    (environ : gmap string string) : Py unit :=
  let api_token := environ !! "CLOUDFLARE_API_TOKEN" in
  let zone_id := environ !! "ZONE_ID" in
  if not_set api_token || not_set zone_id then sys_exit 1 else
  let api_token := default EmptyString api_token in
  let zone_id := default EmptyString zone_id in
  let headers := make_headers api_token in
  let total_settings := (length standard_settings_to_apply + 2)%nat in
  let success_count := 0%nat in
  ok ← update_page_shield_setting zone_id headers;
  let success_count := if ok : bool then S success_count else success_count in
  ok ← update_bot_fight_mode zone_id headers;
  let success_count := if ok : bool then S success_count else success_count in
  success_count ←
    count_successes
      (λ s, update_zone_setting zone_id headers (api_name s) (friendly_name s) (payload s))
      standard_settings_to_apply success_count;
  print_tally success_count total_settings;;
  if (success_count <? total_settings)%nat then sys_exit 1 else mret tt.

Definition main : gmap string string → Py unit := main_over standard_settings_to_apply.

End deploy_sec_settings.

(* ===================================================================== *)
(** ** deploy_speed.py *)
(* ===================================================================== *)

Module deploy_speed.

Definition update_zone_request (zone_id : string) (headers : headers_t) (s : setting)
  : request :=
  Request PATCH (zone_setting zone_id (api_name s)) headers (Some (JObj (payload s))).

(** [update_zone_setting]: one PATCH of the payload on the setting's own
    URL ([friendly_name] is used for logging only); the response is
    decoded inside the [try] before [True] is returned. *)
Definition update_zone_setting (zone_id : string) (headers : headers_t)
    (setting_name friendly_name : string) (payload : dict) : Py bool :=
  let url := zone_setting zone_id setting_name in
  try_except
    (response ← requests_patch url headers (JObj payload);
     raise_for_status response;;
     response_json response;;
     mret true)
    (except_requests false).

Definition settings_to_apply : list setting :=
  [Setting "speed_brain" "Speed Brain" value_on;
   Setting "early_hints" "Early Hints" value_on;
   Setting "0rtt" "0-RTT Connection Resumption" value_on]%string.

(** [main], with the list [settings_to_apply] as a parameter. *)
Definition main_over (settings_to_apply : list setting) (environ : gmap string string)
  : Py unit :=
  let api_token := environ !! "CLOUDFLARE_API_TOKEN" in
  let zone_id := environ !! "ZONE_ID" in
  if not_set api_token || not_set zone_id then sys_exit 1 else
  let api_token := default EmptyString api_token in
  let zone_id := default EmptyString zone_id in
  let headers := make_headers api_token in
  success_count ←
    count_successes
      (λ s, update_zone_setting zone_id headers (api_name s) (friendly_name s) (payload s))
      settings_to_apply 0%nat;
  print_tally success_count (length settings_to_apply);;
  if (success_count <? length settings_to_apply)%nat then sys_exit 1 else mret tt.

Definition main : gmap string string → Py unit := main_over settings_to_apply.

End deploy_speed.

(* ===================================================================== *)
(** ** Vocabulary of the specification *)
(* ===================================================================== *)

(** [p] after the exchanges [xs] went over the wire. *)
Definition record (p : process) (xs : list exchange) : process :=
  {| wire := wire p ++ xs; stdout := stdout p |}.

(** What the remote system [R] answers when the requests [qs] are submitted
    one at a time, in this order, after the conversation [h]. *)
Fixpoint converse (R : remote) (h : list exchange) (qs : list request) : list exchange :=
  match qs with
  | [] => []
  | q :: rest =>
      let x := {| sent := q; got := R h q |} in
      x :: converse R (h ++ [x]) rest
  end.

Fixpoint rejections (xs : list exchange) : nat :=
  match xs with
  | [] => 0
  | x :: rest => ((if rejected (got x) then 1 else 0) + rejections rest)%nat
  end.

Fixpoint acceptances (xs : list exchange) : nat :=
  match xs with
  | [] => 0
  | x :: rest => ((if accepted (got x) then 1 else 0) + acceptances rest)%nat
  end.

(** The exchanges a write function reports as successes. *)
Fixpoint reported_successes (xs : list exchange) : nat :=
  match xs with
  | [] => 0
  | x :: rest => ((if reported_success (got x) then 1 else 0) + reported_successes rest)%nat
  end.

(** Credentials. *)
Definition credentials (environ : gmap string string) (api_token zone_id : string) : Prop :=
  environ !! "CLOUDFLARE_API_TOKEN" = Some api_token ∧ api_token ≠ EmptyString ∧
  environ !! "ZONE_ID" = Some zone_id ∧ zone_id ≠ EmptyString.

Definition unset_or_empty (environ : gmap string string) (name : string) : Prop :=
  environ !! name = None ∨ environ !! name = Some EmptyString.

(** *** The Locator's two requests *)

(** The enumeration (read) request. *)
Definition list_request (zone_id : string) (headers : headers_t) : request :=
  Request GET (zone_rulesets zone_id) headers None.

(** The creation (write) request of the cache Locator. *)
Definition create_request (zone_id : string) (headers : headers_t) : request :=
  Request POST (zone_rulesets zone_id) headers (Some deploy_cache_rules.create_payload).

Definition is_creation (q : request) : bool :=
  match req_method q, req_url q with
  | POST, zone_rulesets _ => true
  | _, _ => false
  end.

(** An append-rule request: a POST on some ruleset's [/rules]. *)
Definition is_append (q : request) : bool :=
  match req_method q, req_url q with
  | POST, ruleset_rules _ _ => true
  | _, _ => false
  end.

(** A read request, and a write request. *)
Definition is_read (q : request) : bool :=
  match req_method q with
  | GET => true
  | POST | PUT | PATCH => false
  end.

Definition count_requests (which : request → bool) (xs : list exchange) : nat :=
  length (List.filter (λ x, which (sent x)) xs).

(** *** What an enumeration response lists *)

Fixpoint as_dicts (items : list json) : option (list dict) :=
  match items with
  | [] => Some []
  | JObj d :: rest => option_map (cons d) (as_dicts rest)
  | _ :: _ => None
  end.

(** The containers a response lists: its body is an object whose [result]
    (an empty list when absent) is a list of objects. *)
Definition listed (r : response) : option (list dict) :=
  match body r with
  | JObj d =>
      match from_option id (JArr []) (dict_get d "result") with
      | JArr items => as_dicts items
      | _ => None
      end
  | _ => None
  end.

(** A container of kind ['zone'] and the given phase. *)
Definition is_container (phase : string) (c : dict) : bool :=
  match dict_get c "kind", dict_get c "phase" with
  | Some (JStr k), Some (JStr ph) => String.eqb k "zone" && String.eqb ph phase
  | _, _ => false
  end.

(** The value under [id] of a container ([None] when it has none). *)
Definition container_id (c : dict) : json :=
  from_option id JNull (dict_get c "id").

(** The enumeration succeeded and listed the containers [cs]. *)
Definition enumerated (a : reply) (cs : list dict) : Prop :=
  ∃ r, a = Answered r ∧ is_http_error r = false ∧ listed r = Some cs.

(** The identifier a creation response supplies: the value under [id] of
    its [result] object ([JNull] when the key is absent). *)
Definition supplied_id (a : reply) (v : json) : Prop :=
  ∃ r d res, a = Answered r ∧ is_http_error r = false ∧ body r = JObj d ∧
             from_option id (JObj []) (dict_get d "result") = JObj res ∧
             v = from_option id JNull (dict_get res "id").

(** *** Batches *)

(** A run that reached its batch of mutations: the remote system, what
    went over the wire before the batch (the Locator's exchanges), the
    write request of each mutation in input order, and what the process
    did. *)
Record batch_run : Type := BatchRun {
  br_remote : remote;
  br_before : list exchange;
  br_mutations : list request;
  br_exit : Z;
  br_final : process
}.

Definition observe (R : remote) (before : list exchange) (mutations : list request)
    (main : Py unit) : batch_run :=
  BatchRun R before mutations (run_script main R).1 (run_script main R).2.

(** The runs of the five scripts that apply a batch, for every remote
    system, every environment that holds the credentials and every list of
    mutations.  The two container scripts reach their batch when the
    Locator returns an identifier. *)
Inductive is_batch_run : batch_run → Prop :=
  | cache_rules_run R environ api_token zone_id rules ruleset_id p :
      credentials environ api_token zone_id →
      deploy_cache_rules.find_or_create_cache_ruleset zone_id (make_headers api_token) R start
        = (Returned ruleset_id, p) →
      py_truthy ruleset_id = true →
      is_batch_run
        (observe R (wire p)
           (map (deploy_cache_rules.add_rule_request zone_id ruleset_id (make_headers api_token))
                rules)
           (deploy_cache_rules.main_over rules environ))
  | securityrules_run R environ api_token zone_id rules ruleset_id p :
      credentials environ api_token zone_id →
      deploy_securityrules.find_firewall_ruleset_id zone_id (make_headers api_token) R start
        = (Returned ruleset_id, p) →
      py_truthy ruleset_id = true →
      is_batch_run
        (observe R (wire p)
           (map (deploy_securityrules.add_rule_request zone_id ruleset_id (make_headers api_token))
                rules)
           (deploy_securityrules.main_over rules environ))
  | dns_sec_settings_run R environ api_token zone_id settings :
      credentials environ api_token zone_id →
      is_batch_run
        (observe R []
           (deploy_dns_sec_settings.dnssec_request zone_id (make_headers api_token)
            :: map (deploy_dns_sec_settings.update_zone_request zone_id (make_headers api_token))
                   settings)
           (deploy_dns_sec_settings.main_over settings environ))
  | sec_settings_run R environ api_token zone_id settings :
      credentials environ api_token zone_id →
      is_batch_run
        (observe R []
           (deploy_sec_settings.page_shield_request zone_id (make_headers api_token)
            :: deploy_sec_settings.bot_fight_request zone_id (make_headers api_token)
            :: map (deploy_sec_settings.update_zone_request zone_id (make_headers api_token))
                   settings)
           (deploy_sec_settings.main_over settings environ))
  | speed_run R environ api_token zone_id settings :
      credentials environ api_token zone_id →
      is_batch_run
        (observe R []
           (map (deploy_speed.update_zone_request zone_id (make_headers api_token)) settings)
           (deploy_speed.main_over settings environ)).

(** The exchanges of the batch: what went over the wire after the
    Locator's part. *)
Definition mutation_exchanges (b : batch_run) : list exchange :=
  drop (length (br_before b)) (wire (br_final b)).

(** The remote system's answers to the batch, mutation by mutation. *)
Definition remote_answers (b : batch_run) : list exchange :=
  converse (br_remote b) (br_before b) (br_mutations b).

(** The run a batch of mutations is expected to give. *)
Definition expected_run (R : remote) (before : list exchange) (mutations : list request)
  : batch_run :=
  let xs := converse R before mutations in
  let success_count := reported_successes xs in
  let total := length mutations in
  BatchRun R before mutations
           (if (success_count <? total)%nat then 1 else 0)
           {| wire := before ++ xs; stdout := [mkTally success_count total] |}.

(** *** Write verbs *)

(** Every call of [f] issues exactly one request, with verb [m], on [url]. *)
Definition issues_one (f : Py bool) (m : method) (url : endpoint) : Prop :=
  ∀ R p, ∃ x, (f R p).2 = record p [x] ∧ req_method (sent x) = m ∧ req_url (sent x) = url.

(** The full-replace request of the rate-limit script. *)
Definition is_full_replace (q : request) : Prop :=
  req_method q = PUT ∧
  (∃ zone_id, req_url q = phase_entrypoint zone_id "http_ratelimit") ∧
  req_json q = Some deploy_rate_limiting.payload.

(** *** The claims that fail as they are worded *)

(** "Whenever the enumeration succeeds and lists no container of kind
    'zone' and the target phase, the Locator issues exactly one creation
    request." *)
Definition creates_when_missing (locator : string → headers_t → Py json) (phase : string)
  : Prop :=
  ∀ R zone_id headers cs,
    enumerated (R [] (list_request zone_id headers)) cs →
    List.find (is_container phase) cs = None →
    count_requests is_creation (wire (locator zone_id headers R start).2) = 1%nat.

(** "The enumeration fails": no response, or a response whose status is
    not 2xx. *)
Definition not_2xx (a : reply) : Prop :=
  match a with
  | Unreachable => True
  | Answered r => ¬ (200 ≤ status_code r < 300)
  | Garbled status => ¬ (200 ≤ status < 300)
  end.

(** "Whenever the enumeration fails, no mutation request is issued and the
    process exits with status 1." *)
Definition aborts_when_not_2xx (main : gmap string string → Py unit) : Prop :=
  ∀ R environ api_token zone_id,
    credentials environ api_token zone_id →
    not_2xx (R [] (list_request zone_id (make_headers api_token))) →
    (run_script (main environ) R).1 = 1 ∧
    count_requests is_append (wire (run_script (main environ) R).2) = 0%nat.

(** *** Effects a step does not have *)

(** [m] prints nothing. *)
Definition quiet {A : Type} (m : Py A) : Prop := ∀ R p, stdout (m R p).2 = stdout p.

(** [m] neither sends nor prints. *)
Definition silent {A : Type} (m : Py A) : Prop := ∀ R p, (m R p).2 = p.

(* ===================================================================== *)
(** ** Sample worlds *)
(* ===================================================================== *)

Definition sample_environ : gmap string string :=
  <["CLOUDFLARE_API_TOKEN" := "token"]> (<["ZONE_ID" := "zone"]> ∅).

Definition sample_headers : headers_t := make_headers "token".

Definition ok_body : json := JObj [("success", JBool true)].

Definition cache_container (ruleset_id : string) : dict :=
  [("id", JStr ruleset_id); ("kind", JStr "zone");
   ("phase", JStr "http_request_cache_settings")].

Definition firewall_container (ruleset_id : string) : dict :=
  [("id", JStr ruleset_id); ("kind", JStr "zone");
   ("phase", JStr "http_request_firewall_custom")].

Definition managed_container (ruleset_id : string) : dict :=
  [("id", JStr ruleset_id); ("kind", JStr "managed");
   ("phase", JStr "http_request_cache_settings")].

Definition sample_listing : list dict :=
  [managed_container "m1"; cache_container "c1"; firewall_container "f1";
   cache_container "c2"].

(** A zone without rulesets; creation answers with the identifier [abc];
    every write is accepted. *)
Definition fresh_zone : remote := λ _ q,
  match req_method q, req_url q with
  | GET, _ => Answered (Response 200 (JObj [("result", JArr [])]))
  | POST, zone_rulesets _ =>
      Answered (Response 200 (JObj [("result", JObj [("id", JStr "abc")])]))
  | _, _ => Answered (Response 200 ok_body)
  end.

(** The same zone, but the creation response carries no identifier. *)
Definition fresh_zone_no_id : remote := λ _ q,
  match req_method q, req_url q with
  | GET, _ => Answered (Response 200 (JObj [("result", JArr [])]))
  | POST, zone_rulesets _ => Answered (Response 200 (JObj [("result", JObj [])]))
  | _, _ => Answered (Response 200 ok_body)
  end.

(** A zone that lists four rulesets, among them two for the cache phase
    and one for the firewall phase. *)
Definition provisioned_zone : remote := λ _ q,
  match req_method q with
  | GET =>
      Answered (Response 200 (JObj [("result", JArr (map JObj sample_listing))]))
  | _ => Answered (Response 200 ok_body)
  end.

(** Every request is answered with HTTP 500. *)
Definition failing_zone : remote := λ _ _,
  Answered (Response 500 (JObj [("success", JBool false)])).

(** The enumeration is answered with status 300 and a body that lists a
    cache ruleset; every write is accepted. *)
Definition status_300_zone : remote := λ _ q,
  match req_method q with
  | GET => Answered (Response 300 (JObj [("result", JArr [JObj (cache_container "abc")])]))
  | _ => Answered (Response 200 ok_body)
  end.

(** Every setting is accepted except [min_tls_version], answered with
    HTTP 404. *)
Definition one_unsupported : remote := λ _ q,
  match req_url q with
  | zone_setting _ name =>
      if String.eqb name "min_tls_version"
      then Answered (Response 404 (JObj [("success", JBool false)]))
      else Answered (Response 200 ok_body)
  | _ => Answered (Response 200 ok_body)
  end.

(** The second rule of a batch is rejected, whatever it is. *)
Definition second_write_fails : remote := λ h q,
  match req_method q with
  | GET => Answered (Response 200 (JObj [("result", JArr [JObj (firewall_container "f1")])]))
  | _ => if Nat.eqb (length h) 2 then Unreachable else Answered (Response 200 ok_body)
  end.

(** The DNS/TLS script against [one_unsupported]. *)
Definition sample_dns_run : batch_run :=
  observe one_unsupported []
    (deploy_dns_sec_settings.dnssec_request "zone" sample_headers
     :: map (deploy_dns_sec_settings.update_zone_request "zone" sample_headers)
            deploy_dns_sec_settings.ssl_settings_to_apply)
    (deploy_dns_sec_settings.main sample_environ).

(** As [one_unsupported], but the DNSSEC update is answered 204 No
    Content: accepted, with an empty body. *)
Definition dnssec_no_content : remote := λ h q,
  match req_url q with
  | zone_dnssec _ => Garbled 204
  | _ => one_unsupported h q
  end.

(** The DNS/TLS script against [dnssec_no_content]. *)
Definition no_content_dns_run : batch_run :=
  observe dnssec_no_content []
    (deploy_dns_sec_settings.dnssec_request "zone" sample_headers
     :: map (deploy_dns_sec_settings.update_zone_request "zone" sample_headers)
            deploy_dns_sec_settings.ssl_settings_to_apply)
    (deploy_dns_sec_settings.main sample_environ).

(** Every request is answered 200 with a body that is not JSON. *)
Definition html_bodies : remote := λ _ _, Garbled 200.

(** The speed script against [html_bodies]. *)
Definition html_speed_run : batch_run :=
  observe html_bodies []
    (map (deploy_speed.update_zone_request "zone" sample_headers)
         deploy_speed.settings_to_apply)
    (deploy_speed.main sample_environ).

(** The cache script against [fresh_zone]. *)
Definition sample_cache_run : batch_run :=
  observe fresh_zone
    (wire (deploy_cache_rules.find_or_create_cache_ruleset "zone" sample_headers
             fresh_zone start).2)
    (map (deploy_cache_rules.add_rule_request "zone" (JStr "abc") sample_headers)
         deploy_cache_rules.rules_to_add)
    (deploy_cache_rules.main sample_environ).

(** The firewall script against [second_write_fails]. *)
Definition sample_firewall_run : batch_run :=
  observe second_write_fails
    (wire (deploy_securityrules.find_firewall_ruleset_id "zone" sample_headers
             second_write_fails start).2)
    (map (deploy_securityrules.add_rule_request "zone" (JStr "f1") sample_headers)
         deploy_securityrules.rules_to_add)
    (deploy_securityrules.main sample_environ).

(* ===================================================================== *)
(** ** Vocabulary for whole runs *)
(* ===================================================================== *)



(** Whatever the remote system answers, [m] only adds to the wire, and
    every request it adds satisfies [P]. *)
Definition emits {A : Type} (P : request → Prop) (m : Py A) : Prop :=
  ∀ R p, ∃ xs, wire (m R p).2 = wire p ++ xs ∧ Forall (λ x, P (sent x)) xs.

(** [m] never raises [SystemExit]. *)
Definition never_exits {A : Type} (m : Py A) : Prop :=
  ∀ R p c, (m R p).1 ≠ Raised (SystemExit c).

(** The requests of [deploy_cache_rules.py]: the enumeration, the
    creation, and the append of one of the rules on a ruleset whose
    identifier is truthy. *)
Definition cache_speaks (zone_id : string) (headers : headers_t) (rules : list dict)
    (q : request) : Prop :=
  q = list_request zone_id headers ∨
  q = create_request zone_id headers ∨
  ∃ ruleset_id rule,
    rule ∈ rules ∧ py_truthy ruleset_id = true ∧
    q = deploy_cache_rules.add_rule_request zone_id ruleset_id headers rule.

(** The requests of [deploy_securityrules.py]: the enumeration and the
    append of one of the rules. *)
Definition firewall_speaks (zone_id : string) (headers : headers_t) (rules : list dict)
    (q : request) : Prop :=
  q = list_request zone_id headers ∨
  ∃ ruleset_id rule,
    rule ∈ rules ∧ py_truthy ruleset_id = true ∧
    q = deploy_securityrules.add_rule_request zone_id ruleset_id headers rule.

(** The requests of [deploy_dns_sec_settings.py]. *)
Definition dns_speaks (zone_id : string) (headers : headers_t) (settings : list setting)
    (q : request) : Prop :=
  q = deploy_dns_sec_settings.dnssec_request zone_id headers ∨
  ∃ s, s ∈ settings ∧ q = deploy_dns_sec_settings.update_zone_request zone_id headers s.

(** The requests of [deploy_sec_settings.py]. *)
Definition sec_speaks (zone_id : string) (headers : headers_t) (settings : list setting)
    (q : request) : Prop :=
  q = deploy_sec_settings.page_shield_request zone_id headers ∨
  q = deploy_sec_settings.bot_fight_request zone_id headers ∨
  ∃ s, s ∈ settings ∧ q = deploy_sec_settings.update_zone_request zone_id headers s.

(** The requests of [deploy_speed.py]. *)
Definition speed_speaks (zone_id : string) (headers : headers_t) (settings : list setting)
    (q : request) : Prop :=
  ∃ s, s ∈ settings ∧ q = deploy_speed.update_zone_request zone_id headers s.

(** [f] is a one-shot write of the request [q]: whatever the remote
    system answers, [f] sends [q] once, sends nothing else, raises nothing,
    and returns [True] exactly when a response with a JSON body arrived
    ([Answered]) whose status is not an error status (400 to 599). *)
Definition one_shot_write (f : Py bool) (q : request) : Prop :=
  ∀ R p, ∃ ok : bool,
    f R p = (Returned ok, record p [Exchange q (R (wire p) q)]) ∧
    (ok = true ↔ ∃ r, R (wire p) q = Answered r ∧ ¬ (400 ≤ status_code r < 600)).

(** *** More sample worlds *)

(** A zone without rulesets that refuses the creation with HTTP 403. *)
Definition creation_refused : remote := λ _ q,
  match req_method q, req_url q with
  | GET, _ => Answered (Response 200 (JObj [("result", JArr [])]))
  | POST, zone_rulesets _ => Answered (Response 403 (JObj [("success", JBool false)]))
  | _, _ => Answered (Response 200 ok_body)
  end.

(** A cache ruleset and a firewall ruleset listed without a usable
    identifier: the first has no [id], the second an empty one. *)
Definition listing_without_id : list dict :=
  [[("kind", JStr "zone"); ("phase", JStr "http_request_cache_settings")];
   [("id", JStr ""); ("kind", JStr "zone"); ("phase", JStr "http_request_firewall_custom")]].

Definition zone_without_id : remote := λ _ q,
  match req_method q with
  | GET => Answered (Response 200 (JObj [("result", JArr (map JObj listing_without_id))]))
  | _ => Answered (Response 200 ok_body)
  end.

(** The enumeration answers [{"result": null}]. *)
Definition null_result_zone : remote := λ _ _,
  Answered (Response 200 (JObj [("result", JNull)])).

(** A listing whose first entry is the cache ruleset [c1] and whose
    second entry is a string. *)
Definition junk_after_match : remote := λ _ q,
  match req_method q with
  | GET =>
      Answered (Response 200
        (JObj [("result", JArr [JObj (cache_container "c1"); JStr "junk"])]))
  | _ => Answered (Response 200 ok_body)
  end.

(* ===================================================================== *)
(** ** Stepping through a script *)
(* ===================================================================== *)

Lemma bind_run {A B : Type} (m : Py A) (f : A → Py B) (R : remote) (p : process) :
  (m ≫= f) R p =
  match m R p with
  | (Returned a, p') => f a R p'
  | (Raised e, p') => (Raised e, p')
  end.
Proof. reflexivity. Qed.

Lemma record_nil (p : process) : record p [] = p.
Proof. destruct p as [w o]. unfold record. simpl. by rewrite app_nil_r. Qed.

Lemma record_record (p : process) (xs ys : list exchange) :
  record (record p xs) ys = record p (xs ++ ys).
Proof. unfold record. simpl. by rewrite app_assoc. Qed.

Lemma record_start (xs : list exchange) : record start xs = {| wire := xs; stdout := [] |}.
Proof. reflexivity. Qed.

(** One request, one attempt: the body shared by [add_rule_to_ruleset],
    [update_zone_setting] and the special-endpoint updaters.  The request
    goes out once; the function returns [True] when the response has no
    error status and its body decodes; both [except] clauses return
    [False] without another request. *)
Lemma write_once (q : request) (R : remote) (p : process) :
  try_except (response ← requests_call q;
              raise_for_status response;;
              response_json response;;
              mret true)
             (except_requests false) R p
  = (Returned (reported_success (R (wire p) q)), record p [Exchange q (R (wire p) q)]).
Proof.
  unfold try_except, mbind, Py_bind, requests_call, reported_success.
  destruct (R (wire p) q) as [r|status|]; simpl; [| |reflexivity].
  - unfold raise_for_status, is_http_error, error_status. simpl.
    destruct ((400 <=? status_code r) && (status_code r <? 600)); reflexivity.
  - unfold raise_for_status. simpl. destruct (error_status status); reflexivity.
Qed.

Lemma map_sent_converse (R : remote) (qs : list request) :
  ∀ h, map sent (converse R h qs) = qs.
Proof. induction qs as [|q qs IH]; intros h; simpl; [done|]. by rewrite IH. Qed.

Lemma length_converse (R : remote) (qs : list request) (h : list exchange) :
  length (converse R h qs) = length qs.
Proof. by rewrite <- (map_sent_converse R qs h) at 2; rewrite length_map. Qed.

Lemma acceptances_rejections (xs : list exchange) :
  (acceptances xs + rejections xs = length xs)%nat.
Proof.
  induction xs as [|x xs IH]; simpl; [done|].
  unfold accepted. destruct (rejected (got x)); simpl; lia.
Qed.

Lemma acceptances_all (xs : list exchange) :
  Forall (λ x, accepted (got x) = true) xs → acceptances xs = length xs.
Proof. induction 1 as [|x xs Hx _ IH]; simpl; [done|]. rewrite Hx, IH. done. Qed.

(** The counting loop over one-shot attempts: every element is attempted,
    in order, whatever the earlier replies were. *)
Lemma count_successes_run {A : Type} (f : A → Py bool) (req : A → request) :
  (∀ x R p, f x R p = (Returned (reported_success (R (wire p) (req x))),
                       record p [Exchange (req x) (R (wire p) (req x))])) →
  ∀ xs n R p,
    count_successes f xs n R p
    = (Returned (n + reported_successes (converse R (wire p) (map req xs)))%nat,
       record p (converse R (wire p) (map req xs))).
Proof.
  intros Hf xs. induction xs as [|x xs IH]; intros n R p; simpl.
  - rewrite record_nil. unfold mret, Py_ret. do 2 f_equal. lia.
  - rewrite bind_run, Hf, IH, record_record. simpl.
    destruct (reported_success (R (wire p) (req x))); do 2 f_equal; lia.
Qed.

(** What is reported as a success was accepted. *)
Lemma reported_success_accepted (a : reply) : reported_success a = true → accepted a = true.
Proof. unfold accepted. by destruct a. Qed.

Lemma reported_successes_le (xs : list exchange) : (reported_successes xs ≤ length xs)%nat.
Proof.
  induction xs as [|x xs IH]; simpl; [done|]. destruct (reported_success (got x)); lia.
Qed.

Lemma reported_successes_full (xs : list exchange) :
  reported_successes xs = length xs → Forall (λ x, reported_success (got x) = true) xs.
Proof.
  induction xs as [|x xs IH]; simpl; [constructor|].
  pose proof (reported_successes_le xs). destruct (reported_success (got x)) eqn:Hx; simpl; [|lia].
  intros [= Hrest]. constructor; [done|by apply IH].
Qed.

(** *** Functions that print nothing *)

Lemma quiet_ret {A : Type} (a : A) : quiet (mret a).
Proof. by intros R p. Qed.

Lemma quiet_raise {A : Type} (e : exn) : quiet (@raise A e).
Proof. by intros R p. Qed.

Lemma quiet_bind {A B : Type} (m : Py A) (f : A → Py B) :
  quiet m → (∀ a, quiet (f a)) → quiet (m ≫= f).
Proof.
  intros Hm Hf R p. rewrite bind_run. specialize (Hm R p).
  destruct (m R p) as [[a|e] p']; simpl in *; [|done]. by rewrite Hf.
Qed.

Lemma quiet_try_except {A : Type} (body : Py A) (handler : exn → option (Py A)) :
  quiet body → (∀ e h, handler e = Some h → quiet h) → quiet (try_except body handler).
Proof.
  intros Hb Hh R p. unfold try_except. specialize (Hb R p).
  destruct (body R p) as [[a|e] p']; simpl in *; [done|].
  destruct (handler e) as [h|] eqn:E; simpl; [|done]. by rewrite (Hh e h E).
Qed.

Lemma quiet_except_requests {A : Type} (failure : A) (e : exn) (h : Py A) :
  except_requests failure e = Some h → quiet h.
Proof. destruct e; simpl; intros [= <-]; apply quiet_ret. Qed.

Lemma quiet_requests_call (q : request) : quiet (requests_call q).
Proof. intros R p. unfold requests_call. by destruct (arrived (R (wire p) q)). Qed.

Lemma quiet_raise_for_status (r : received) : quiet (raise_for_status r).
Proof.
  unfold raise_for_status. destruct (error_status _); [apply quiet_raise|apply quiet_ret].
Qed.

Lemma quiet_response_json (r : received) : quiet (response_json r).
Proof. unfold response_json. destruct (rcv_json r); [apply quiet_ret|apply quiet_raise]. Qed.

Lemma quiet_py_get (v : json) (key : string) (default : json) : quiet (py_get v key default).
Proof. destruct v; simpl; first [apply quiet_raise|apply quiet_ret]. Qed.

Lemma quiet_py_iter (v : json) : quiet (py_iter v).
Proof. destruct v; simpl; first [apply quiet_raise|apply quiet_ret]. Qed.

Create HintDb quiet.
#[global] Hint Resolve quiet_ret quiet_raise quiet_requests_call quiet_raise_for_status
  quiet_response_json quiet_py_get quiet_py_iter : quiet.

Ltac quiet_step :=
  first
    [ progress auto with quiet
    | apply quiet_bind; [|intros ?]
    | apply quiet_try_except; [|intros ? ?; apply quiet_except_requests]
    | match goal with
      | |- quiet (if ?b then _ else _) => destruct b
      | |- quiet (match ?o with Some _ => _ | None => _ end) => destruct o
      end ].

Lemma quiet_cache_scan (rulesets : list json) : quiet (deploy_cache_rules.scan_rulesets rulesets).
Proof. induction rulesets as [|ruleset rest IH]; simpl; repeat quiet_step. Qed.

Lemma quiet_cache_locator (zone_id : string) (headers : headers_t) :
  quiet (deploy_cache_rules.find_or_create_cache_ruleset zone_id headers).
Proof.
  pose proof quiet_cache_scan.
  unfold deploy_cache_rules.find_or_create_cache_ruleset, requests_get, requests_post.
  repeat quiet_step.
Qed.

Lemma quiet_firewall_scan (rulesets : list json) :
  quiet (deploy_securityrules.scan_rulesets rulesets).
Proof. induction rulesets as [|ruleset rest IH]; simpl; repeat quiet_step. Qed.

Lemma quiet_firewall_debug (rulesets : list json) :
  quiet (deploy_securityrules.debug_print rulesets).
Proof. induction rulesets as [|ruleset rest IH]; simpl; repeat quiet_step. Qed.

Lemma quiet_firewall_locator (zone_id : string) (headers : headers_t) :
  quiet (deploy_securityrules.find_firewall_ruleset_id zone_id headers).
Proof.
  pose proof quiet_firewall_scan. pose proof quiet_firewall_debug.
  unfold deploy_securityrules.find_firewall_ruleset_id, deploy_securityrules.debug_block,
    requests_get.
  repeat quiet_step.
Qed.

(** *** The credential guard *)

Lemma not_set_Some (s : string) : s ≠ EmptyString → not_set (Some s) = false.
Proof. intros Hs. simpl. by apply String.eqb_neq. Qed.

Lemma not_set_unset_or_empty (environ : gmap string string) (name : string) :
  unset_or_empty environ name ↔ not_set (environ !! name) = true.
Proof.
  unfold unset_or_empty. destruct (environ !! name) as [s|]; simpl.
  - rewrite String.eqb_eq. split; [intros [|[= ->]]; done|intros ->; by right].
  - split; [done|by left].
Qed.

Lemma guard_passes (environ : gmap string string) (api_token zone_id : string) :
  credentials environ api_token zone_id →
  not_set (environ !! "CLOUDFLARE_API_TOKEN") || not_set (environ !! "ZONE_ID") = false.
Proof.
  intros (Ht & Hne & Hz & Hze). rewrite Ht, Hz, !not_set_Some; done.
Qed.

Lemma guard_stops (environ : gmap string string) :
  unset_or_empty environ "CLOUDFLARE_API_TOKEN" ∨ unset_or_empty environ "ZONE_ID" →
  not_set (environ !! "CLOUDFLARE_API_TOKEN") || not_set (environ !! "ZONE_ID") = true.
Proof.
  rewrite !not_set_unset_or_empty. intros [-> | ->]; [done|by rewrite orb_true_r].
Qed.

(** *** What [main] does once it reaches its batch *)

(** The end of every batch script: print the tally, then decide. *)
Lemma tally_and_exit (success_count total : nat) (R : remote) (p : process) :
  (print_tally success_count total;;
   if (success_count <? total)%nat then sys_exit 1 else mret tt) R p
  = (if (success_count <? total)%nat then Raised (SystemExit 1) else Returned tt,
     {| wire := wire p; stdout := stdout p ++ [mkTally success_count total] |}).
Proof. rewrite bind_run. simpl. by destruct (success_count <? total)%nat. Qed.

Lemma exit_status_tally (success_count total : nat) :
  exit_status (if (success_count <? total)%nat then Raised (SystemExit 1) else Returned tt)
  = if (success_count <? total)%nat then 1 else 0.
Proof. by destruct (success_count <? total)%nat. Qed.

Lemma cache_add_rule_once zone_id ruleset_id headers (rule : dict) R p :
  deploy_cache_rules.add_rule_to_ruleset zone_id ruleset_id headers rule R p
  = (Returned (reported_success (R (wire p) (deploy_cache_rules.add_rule_request zone_id ruleset_id headers rule))),
     record p [Exchange (deploy_cache_rules.add_rule_request zone_id ruleset_id headers rule)
                        (R (wire p) (deploy_cache_rules.add_rule_request zone_id ruleset_id headers rule))]).
Proof. apply write_once. Qed.

Lemma firewall_add_rule_once zone_id ruleset_id headers (rule : dict) R p :
  deploy_securityrules.add_rule_to_ruleset zone_id ruleset_id headers rule R p
  = (Returned (reported_success (R (wire p) (deploy_securityrules.add_rule_request zone_id ruleset_id headers rule))),
     record p [Exchange (deploy_securityrules.add_rule_request zone_id ruleset_id headers rule)
                        (R (wire p) (deploy_securityrules.add_rule_request zone_id ruleset_id headers rule))]).
Proof. apply write_once. Qed.

Lemma cache_main_batch R environ api_token zone_id rules ruleset_id p :
  credentials environ api_token zone_id →
  deploy_cache_rules.find_or_create_cache_ruleset zone_id (make_headers api_token) R start
    = (Returned ruleset_id, p) →
  py_truthy ruleset_id = true →
  observe R (wire p)
    (map (deploy_cache_rules.add_rule_request zone_id ruleset_id (make_headers api_token)) rules)
    (deploy_cache_rules.main_over rules environ)
  = expected_run R (wire p)
      (map (deploy_cache_rules.add_rule_request zone_id ruleset_id (make_headers api_token)) rules).
Proof.
  intros Hc Hloc Hid.
  assert (stdout p = []) as Hout.
  { pose proof (quiet_cache_locator zone_id (make_headers api_token) R start) as Hq.
    by rewrite Hloc in Hq. }
  unfold observe, expected_run, run_script, deploy_cache_rules.main_over.
  rewrite (guard_passes _ _ _ Hc). destruct Hc as (-> & _ & -> & _). simpl default.
  rewrite bind_run, Hloc, Hid, bind_run.
  rewrite (count_successes_run _ _ (cache_add_rule_once zone_id ruleset_id (make_headers api_token))).
  rewrite tally_and_exit. simpl. rewrite exit_status_tally, Hout, length_map. reflexivity.
Qed.

Lemma firewall_main_batch R environ api_token zone_id rules ruleset_id p :
  credentials environ api_token zone_id →
  deploy_securityrules.find_firewall_ruleset_id zone_id (make_headers api_token) R start
    = (Returned ruleset_id, p) →
  py_truthy ruleset_id = true →
  observe R (wire p)
    (map (deploy_securityrules.add_rule_request zone_id ruleset_id (make_headers api_token)) rules)
    (deploy_securityrules.main_over rules environ)
  = expected_run R (wire p)
      (map (deploy_securityrules.add_rule_request zone_id ruleset_id (make_headers api_token)) rules).
Proof.
  intros Hc Hloc Hid.
  assert (stdout p = []) as Hout.
  { pose proof (quiet_firewall_locator zone_id (make_headers api_token) R start) as Hq.
    by rewrite Hloc in Hq. }
  unfold observe, expected_run, run_script, deploy_securityrules.main_over.
  rewrite (guard_passes _ _ _ Hc). destruct Hc as (-> & _ & -> & _). simpl default.
  rewrite bind_run, Hloc, Hid, bind_run.
  rewrite (count_successes_run _ _
             (firewall_add_rule_once zone_id ruleset_id (make_headers api_token))).
  rewrite tally_and_exit. simpl. rewrite exit_status_tally, Hout, length_map. reflexivity.
Qed.

Lemma dns_update_zone_once zone_id headers (s : setting) R p :
  deploy_dns_sec_settings.update_zone_setting zone_id headers
    (api_name s) (friendly_name s) (payload s) R p
  = (Returned (reported_success (R (wire p) (deploy_dns_sec_settings.update_zone_request zone_id headers s))),
     record p [Exchange (deploy_dns_sec_settings.update_zone_request zone_id headers s)
                        (R (wire p) (deploy_dns_sec_settings.update_zone_request zone_id headers s))]).
Proof. apply write_once. Qed.

Lemma dnssec_once zone_id headers R p :
  deploy_dns_sec_settings.update_dnssec_setting zone_id headers R p
  = (Returned (reported_success (R (wire p) (deploy_dns_sec_settings.dnssec_request zone_id headers))),
     record p [Exchange (deploy_dns_sec_settings.dnssec_request zone_id headers)
                        (R (wire p) (deploy_dns_sec_settings.dnssec_request zone_id headers))]).
Proof. apply write_once. Qed.

Lemma sec_update_zone_once zone_id headers (s : setting) R p :
  deploy_sec_settings.update_zone_setting zone_id headers
    (api_name s) (friendly_name s) (payload s) R p
  = (Returned (reported_success (R (wire p) (deploy_sec_settings.update_zone_request zone_id headers s))),
     record p [Exchange (deploy_sec_settings.update_zone_request zone_id headers s)
                        (R (wire p) (deploy_sec_settings.update_zone_request zone_id headers s))]).
Proof. apply write_once. Qed.

Lemma page_shield_once zone_id headers R p :
  deploy_sec_settings.update_page_shield_setting zone_id headers R p
  = (Returned (reported_success (R (wire p) (deploy_sec_settings.page_shield_request zone_id headers))),
     record p [Exchange (deploy_sec_settings.page_shield_request zone_id headers)
                        (R (wire p) (deploy_sec_settings.page_shield_request zone_id headers))]).
Proof. apply write_once. Qed.

Lemma bot_fight_once zone_id headers R p :
  deploy_sec_settings.update_bot_fight_mode zone_id headers R p
  = (Returned (reported_success (R (wire p) (deploy_sec_settings.bot_fight_request zone_id headers))),
     record p [Exchange (deploy_sec_settings.bot_fight_request zone_id headers)
                        (R (wire p) (deploy_sec_settings.bot_fight_request zone_id headers))]).
Proof. apply write_once. Qed.

Lemma speed_update_zone_once zone_id headers (s : setting) R p :
  deploy_speed.update_zone_setting zone_id headers
    (api_name s) (friendly_name s) (payload s) R p
  = (Returned (reported_success (R (wire p) (deploy_speed.update_zone_request zone_id headers s))),
     record p [Exchange (deploy_speed.update_zone_request zone_id headers s)
                        (R (wire p) (deploy_speed.update_zone_request zone_id headers s))]).
Proof. apply write_once. Qed.

Lemma rate_limit_once zone_id headers R p :
  deploy_rate_limiting.deploy_rate_limit_ruleset zone_id headers R p
  = (Returned (reported_success (R (wire p) (deploy_rate_limiting.deploy_request zone_id headers))),
     record p [Exchange (deploy_rate_limiting.deploy_request zone_id headers)
                        (R (wire p) (deploy_rate_limiting.deploy_request zone_id headers))]).
Proof. apply write_once. Qed.

Lemma dns_main_batch R environ api_token zone_id settings :
  credentials environ api_token zone_id →
  observe R []
    (deploy_dns_sec_settings.dnssec_request zone_id (make_headers api_token)
     :: map (deploy_dns_sec_settings.update_zone_request zone_id (make_headers api_token)) settings)
    (deploy_dns_sec_settings.main_over settings environ)
  = expected_run R []
      (deploy_dns_sec_settings.dnssec_request zone_id (make_headers api_token)
       :: map (deploy_dns_sec_settings.update_zone_request zone_id (make_headers api_token))
              settings).
Proof.
  intros Hc.
  unfold observe, expected_run, run_script, deploy_dns_sec_settings.main_over.
  rewrite (guard_passes _ _ _ Hc). destruct Hc as (-> & _ & -> & _). simpl default.
  rewrite bind_run, dnssec_once, bind_run.
  rewrite (count_successes_run _ _ (dns_update_zone_once zone_id (make_headers api_token))).
  rewrite tally_and_exit. simpl. rewrite exit_status_tally, length_map, Nat.add_1_r.
  destruct (reported_success _); reflexivity.
Qed.

Lemma sec_main_batch R environ api_token zone_id settings :
  credentials environ api_token zone_id →
  observe R []
    (deploy_sec_settings.page_shield_request zone_id (make_headers api_token)
     :: deploy_sec_settings.bot_fight_request zone_id (make_headers api_token)
     :: map (deploy_sec_settings.update_zone_request zone_id (make_headers api_token)) settings)
    (deploy_sec_settings.main_over settings environ)
  = expected_run R []
      (deploy_sec_settings.page_shield_request zone_id (make_headers api_token)
       :: deploy_sec_settings.bot_fight_request zone_id (make_headers api_token)
       :: map (deploy_sec_settings.update_zone_request zone_id (make_headers api_token))
              settings).
Proof.
  intros Hc.
  unfold observe, expected_run, run_script, deploy_sec_settings.main_over.
  rewrite (guard_passes _ _ _ Hc). destruct Hc as (-> & _ & -> & _). simpl default.
  rewrite bind_run, page_shield_once, bind_run, bot_fight_once, bind_run.
  rewrite (count_successes_run _ _ (sec_update_zone_once zone_id (make_headers api_token))).
  rewrite tally_and_exit. simpl. rewrite exit_status_tally, length_map.
  replace (length settings + 2)%nat with (S (S (length settings))) by lia.
  do 2 destruct (reported_success _); reflexivity.
Qed.

Lemma speed_main_batch R environ api_token zone_id settings :
  credentials environ api_token zone_id →
  observe R []
    (map (deploy_speed.update_zone_request zone_id (make_headers api_token)) settings)
    (deploy_speed.main_over settings environ)
  = expected_run R []
      (map (deploy_speed.update_zone_request zone_id (make_headers api_token)) settings).
Proof.
  intros Hc.
  unfold observe, expected_run, run_script, deploy_speed.main_over.
  rewrite (guard_passes _ _ _ Hc). destruct Hc as (-> & _ & -> & _). simpl default.
  rewrite bind_run.
  rewrite (count_successes_run _ _ (speed_update_zone_once zone_id (make_headers api_token))).
  rewrite tally_and_exit. simpl. rewrite exit_status_tally, length_map. reflexivity.
Qed.

(** Every batch run is the expected one. *)
Lemma batch_run_expected (b : batch_run) :
  is_batch_run b → b = expected_run (br_remote b) (br_before b) (br_mutations b).
Proof.
  intros [R environ api_token zone_id rules ruleset_id p Hc Hloc Hid
         |R environ api_token zone_id rules ruleset_id p Hc Hloc Hid
         |R environ api_token zone_id settings Hc
         |R environ api_token zone_id settings Hc
         |R environ api_token zone_id settings Hc].
  - by rewrite (cache_main_batch _ _ _ _ _ _ _ Hc Hloc Hid).
  - by rewrite (firewall_main_batch _ _ _ _ _ _ _ Hc Hloc Hid).
  - by rewrite (dns_main_batch _ _ _ _ _ Hc).
  - by rewrite (sec_main_batch _ _ _ _ _ Hc).
  - by rewrite (speed_main_batch _ _ _ _ _ Hc).
Qed.

Lemma mutation_exchanges_expected (R : remote) (before : list exchange) (qs : list request) :
  mutation_exchanges (expected_run R before qs) = converse R before qs.
Proof. unfold mutation_exchanges, expected_run. simpl. by rewrite drop_app_length. Qed.

(** *** The Locators, step by step *)

Lemma as_dicts_map (items : list json) :
  ∀ cs, as_dicts items = Some cs → items = map JObj cs.
Proof.
  induction items as [|v items IH]; intros cs; simpl.
  - by intros [= <-].
  - destruct v; try done. destruct (as_dicts items) as [cs'|]; simpl; [|done].
    intros [= <-]. simpl. by rewrite (IH cs').
Qed.

Lemma listed_body (r : response) (cs : list dict) :
  listed r = Some cs →
  ∃ d, body r = JObj d ∧ from_option id (JArr []) (dict_get d "result") = JArr (map JObj cs).
Proof.
  unfold listed. destruct (body r) as [| | | | |d]; try done.
  destruct (from_option id (JArr []) (dict_get d "result")) as [| | | |items|] eqn:E;
    try done.
  intros H. exists d. split; [done|]. by rewrite E, (as_dicts_map _ _ H).
Qed.

(** The test of the two scanning loops is the test [is_container]. *)
Lemma scan_test (phase : string) (c : dict) :
  (if py_eq_str (from_option id JNull (dict_get c "kind")) "zone"
   then py_eq_str (from_option id JNull (dict_get c "phase")) phase
   else false) = is_container phase c.
Proof.
  unfold is_container.
  destruct (dict_get c "kind") as [[| | |k| |]|]; simpl; try done;
    destruct (dict_get c "phase") as [[| | |ph| |]|]; simpl;
    destruct (String.eqb k "zone"); done.
Qed.

Lemma cache_scan_dicts (cs : list dict) (R : remote) (p : process) :
  deploy_cache_rules.scan_rulesets (map JObj cs) R p
  = (Returned (option_map container_id (List.find (is_container deploy_cache_rules.phase) cs)), p).
Proof.
  induction cs as [|c cs IH]; [done|].
  cbn [map deploy_cache_rules.scan_rulesets List.find].
  rewrite <- scan_test.
  rewrite bind_run. unfold py_get at 1. cbn [mret Py_ret].
  rewrite bind_run.
  destruct (py_eq_str (from_option id JNull (dict_get c "kind")) "zone").
  - rewrite bind_run. unfold py_get at 1. cbn [mret Py_ret].
    destruct (py_eq_str (from_option id JNull (dict_get c "phase")) deploy_cache_rules.phase).
    + reflexivity.
    + exact IH.
  - exact IH.
Qed.

Lemma firewall_scan_dicts (cs : list dict) (R : remote) (p : process) :
  deploy_securityrules.scan_rulesets (map JObj cs) R p
  = (Returned (option_map container_id
                 (List.find (is_container deploy_securityrules.phase) cs)), p).
Proof.
  induction cs as [|c cs IH]; [done|].
  cbn [map deploy_securityrules.scan_rulesets List.find].
  rewrite <- scan_test.
  rewrite bind_run. unfold py_get at 1. cbn [mret Py_ret].
  rewrite bind_run.
  destruct (py_eq_str (from_option id JNull (dict_get c "kind")) "zone").
  - rewrite bind_run. unfold py_get at 1. cbn [mret Py_ret].
    destruct (py_eq_str (from_option id JNull (dict_get c "phase")) deploy_securityrules.phase).
    + reflexivity.
    + exact IH.
  - exact IH.
Qed.

Lemma firewall_debug_dicts (cs : list dict) (R : remote) (p : process) :
  deploy_securityrules.debug_print (map JObj cs) R p = (Returned tt, p).
Proof.
  induction cs as [|c cs IH]; [done|].
  cbn [map deploy_securityrules.debug_print]. rewrite !bind_run. exact IH.
Qed.

Lemma firewall_debug_block_dicts (cs : list dict) (R : remote) (p : process) :
  deploy_securityrules.debug_block (JArr (map JObj cs)) R p = (Returned tt, p).
Proof.
  unfold deploy_securityrules.debug_block. destruct cs as [|c cs]; [done|].
  cbn [py_truthy negb map length Nat.eqb]. rewrite bind_run. cbn [py_iter mret Py_ret].
  apply (firewall_debug_dicts (c :: cs)).
Qed.

(** *** Steps that neither send nor print *)

Lemma silent_ret {A : Type} (a : A) : silent (mret a).
Proof. by intros R p. Qed.

Lemma silent_raise {A : Type} (e : exn) : silent (@raise A e).
Proof. by intros R p. Qed.

Lemma silent_bind {A B : Type} (m : Py A) (f : A → Py B) :
  silent m → (∀ a, silent (f a)) → silent (m ≫= f).
Proof.
  intros Hm Hf R p. rewrite bind_run. specialize (Hm R p).
  destruct (m R p) as [[a|e] p']; simpl in *; subst p'; [|done]. apply Hf.
Qed.

Lemma silent_raise_for_status (r : received) : silent (raise_for_status r).
Proof.
  unfold raise_for_status. destruct (error_status _); [apply silent_raise|apply silent_ret].
Qed.

Lemma silent_response_json (r : received) : silent (response_json r).
Proof. unfold response_json. destruct (rcv_json r); [apply silent_ret|apply silent_raise]. Qed.

Lemma silent_py_get (v : json) (key : string) (default : json) : silent (py_get v key default).
Proof. destruct v; simpl; first [apply silent_raise|apply silent_ret]. Qed.

Lemma silent_py_iter (v : json) : silent (py_iter v).
Proof. destruct v; simpl; first [apply silent_raise|apply silent_ret]. Qed.

Create HintDb silent.
#[global] Hint Resolve silent_ret silent_raise silent_raise_for_status silent_response_json
  silent_py_get silent_py_iter : silent.

Ltac silent_step :=
  first
    [ progress auto with silent
    | apply silent_bind; [|intros ?]
    | match goal with
      | |- silent (if ?b then _ else _) => destruct b
      | |- silent (match ?o with Some _ => _ | None => _ end) => destruct o
      end ].

Lemma silent_firewall_scan (rulesets : list json) :
  silent (deploy_securityrules.scan_rulesets rulesets).
Proof. induction rulesets as [|ruleset rest IH]; simpl; repeat silent_step. Qed.

Lemma silent_firewall_debug (rulesets : list json) :
  silent (deploy_securityrules.debug_print rulesets).
Proof. induction rulesets as [|ruleset rest IH]; simpl; repeat silent_step. Qed.

(** A [try] block that sends one request and then only computes leaves
    exactly that request on the wire, whether it returns, fails into one
    of the two [except] clauses, or raises past them. *)
Lemma one_request_then_silent {A : Type} (q : request) (k : received → Py A) (failure : A)
    (R : remote) (p : process) :
  (∀ r, silent (k r)) →
  (try_except (requests_call q ≫= k) (except_requests failure) R p).2
  = record p [Exchange q (R (wire p) q)].
Proof.
  intros Hk. unfold try_except. rewrite bind_run. unfold requests_call.
  destruct (arrived (R (wire p) q)) as [r|]; [|reflexivity].
  specialize (Hk r R {| wire := wire p ++ [Exchange q (R (wire p) q)]; stdout := stdout p |}).
  destruct (k r R _) as [[a|e] p']; simpl in *; subst p'; [reflexivity|].
  destruct e; reflexivity.
Qed.

Lemma error_status_response (r : response) : error_status (status_code r) = is_http_error r.
Proof. reflexivity. Qed.

(** Reading an answer: when the request is answered with a JSON body and
    no error status, the three steps every [try] block starts with (the
    call, [raise_for_status], [.json()]) leave the one exchange on the
    wire and hand over the decoded body. *)
Lemma read_answer {A : Type} (q : request) (K : json → Py A) (R : remote) (p : process)
    (r : response) :
  R (wire p) q = Answered r →
  is_http_error r = false →
  (response ← requests_call q; raise_for_status response;;
   data ← response_json response; K data) R p
  = K (body r) R (record p [Exchange q (Answered r)]).
Proof.
  intros Ha Hr. rewrite bind_run. unfold requests_call. rewrite Ha. cbn [arrived].
  rewrite bind_run. unfold raise_for_status. cbn [rcv_status].
  rewrite error_status_response, Hr. cbn [mret Py_ret].
  rewrite bind_run. reflexivity.
Qed.

(** A rejected request: the same three steps raise an exception that one
    of the two [except] clauses catches. *)
Lemma read_rejected {A : Type} (q : request) (k : received → Py A) (failure : A)
    (R : remote) (p : process) :
  rejected (R (wire p) q) = true →
  try_except (response ← requests_call q; raise_for_status response;; k response)
             (except_requests failure) R p
  = (Returned failure, record p [Exchange q (R (wire p) q)]).
Proof.
  unfold try_except. rewrite bind_run. unfold requests_call.
  destruct (R (wire p) q) as [r|status|]; simpl; intros Hr; [| |reflexivity];
    rewrite bind_run; unfold raise_for_status; simpl;
    rewrite ?error_status_response, Hr; reflexivity.
Qed.

(** The enumeration failed: both Locators return [None] after their one
    request. *)
Lemma cache_locator_fails zone_id headers R p :
  rejected (R (wire p) (list_request zone_id headers)) = true →
  deploy_cache_rules.find_or_create_cache_ruleset zone_id headers R p
  = (Returned JNull,
     record p [Exchange (list_request zone_id headers) (R (wire p) (list_request zone_id headers))]).
Proof.
  intros Hr. unfold deploy_cache_rules.find_or_create_cache_ruleset, requests_get.
  fold (list_request zone_id headers). by apply read_rejected.
Qed.

Lemma firewall_locator_fails zone_id headers R p :
  rejected (R (wire p) (list_request zone_id headers)) = true →
  deploy_securityrules.find_firewall_ruleset_id zone_id headers R p
  = (Returned JNull,
     record p [Exchange (list_request zone_id headers) (R (wire p) (list_request zone_id headers))]).
Proof.
  intros Hr. unfold deploy_securityrules.find_firewall_ruleset_id, requests_get.
  fold (list_request zone_id headers). by apply read_rejected.
Qed.

(** The firewall Locator sends its enumeration request and nothing else. *)
Lemma firewall_locator_wire zone_id headers R p :
  (deploy_securityrules.find_firewall_ruleset_id zone_id headers R p).2
  = record p [Exchange (list_request zone_id headers) (R (wire p) (list_request zone_id headers))].
Proof.
  pose proof silent_firewall_scan. pose proof silent_firewall_debug.
  unfold deploy_securityrules.find_firewall_ruleset_id, requests_get.
  apply one_request_then_silent. intros r.
  unfold deploy_securityrules.debug_block. repeat silent_step.
Qed.

(** The enumeration listed [cs]: the firewall Locator returns the
    identifier of the first container that matches, or [None]. *)
Lemma firewall_locator_listed zone_id headers R p cs :
  enumerated (R (wire p) (list_request zone_id headers)) cs →
  deploy_securityrules.find_firewall_ruleset_id zone_id headers R p
  = (Returned (from_option container_id JNull
                 (List.find (is_container deploy_securityrules.phase) cs)),
     record p [Exchange (list_request zone_id headers) (R (wire p) (list_request zone_id headers))]).
Proof.
  intros (r & Ha & Hr & Hl). destruct (listed_body _ _ Hl) as (d & Hd & Hres).
  unfold deploy_securityrules.find_firewall_ruleset_id, requests_get, try_except.
  fold (list_request zone_id headers).
  rewrite (read_answer _ _ R p r Ha Hr), Ha.
  rewrite bind_run, Hd. unfold py_get. rewrite Hres. cbn [mret Py_ret].
  rewrite bind_run, firewall_debug_block_dicts, bind_run. cbn [py_iter mret Py_ret].
  rewrite bind_run, firewall_scan_dicts.
  destruct (List.find _ cs); reflexivity.
Qed.

(** The enumeration listed [cs] and one of them matches: the cache Locator
    returns the identifier of the first match after its one request. *)
Lemma cache_locator_existing zone_id headers R p cs c :
  enumerated (R (wire p) (list_request zone_id headers)) cs →
  List.find (is_container deploy_cache_rules.phase) cs = Some c →
  deploy_cache_rules.find_or_create_cache_ruleset zone_id headers R p
  = (Returned (container_id c),
     record p [Exchange (list_request zone_id headers) (R (wire p) (list_request zone_id headers))]).
Proof.
  intros (r & Ha & Hr & Hl) Hc. destruct (listed_body _ _ Hl) as (d & Hd & Hres).
  unfold deploy_cache_rules.find_or_create_cache_ruleset, requests_get, try_except.
  fold (list_request zone_id headers).
  rewrite (read_answer _ _ R p r Ha Hr), Ha.
  rewrite bind_run, Hd. unfold py_get at 1. rewrite Hres. cbn [mret Py_ret].
  rewrite bind_run. cbn [py_iter mret Py_ret].
  rewrite bind_run, cache_scan_dicts, Hc. reflexivity.
Qed.

(** The enumeration listed [cs] and none matches: the cache Locator goes
    on with the steps after its loop, from the process that holds the one
    enumeration exchange. *)
Lemma cache_locator_missing zone_id headers R p cs :
  enumerated (R (wire p) (list_request zone_id headers)) cs →
  List.find (is_container deploy_cache_rules.phase) cs = None →
  deploy_cache_rules.find_or_create_cache_ruleset zone_id headers R p
  = try_except
      (create_response ← requests_call (create_request zone_id headers);
       raise_for_status create_response;;
       created ← response_json create_response;
       new_ruleset ← py_get created "result" (JObj []);
       new_ruleset_id ← py_get new_ruleset "id" JNull;
       if py_truthy new_ruleset_id then mret new_ruleset_id else mret JNull)
      (except_requests JNull) R
      (record p [Exchange (list_request zone_id headers)
                          (R (wire p) (list_request zone_id headers))]).
Proof.
  intros (r & Ha & Hr & Hl) Hc. destruct (listed_body _ _ Hl) as (d & Hd & Hres).
  unfold deploy_cache_rules.find_or_create_cache_ruleset, requests_get, requests_post,
    try_except.
  fold (list_request zone_id headers). fold (create_request zone_id headers).
  rewrite (read_answer _ _ R p r Ha Hr), Ha.
  rewrite bind_run, Hd. unfold py_get at 1. rewrite Hres. cbn [mret Py_ret].
  rewrite bind_run. cbn [py_iter mret Py_ret].
  rewrite bind_run, cache_scan_dicts, Hc. reflexivity.
Qed.

(** The creation step leaves exactly the creation request on the wire. *)
Lemma cache_creation_wire zone_id headers R p :
  (try_except
     (create_response ← requests_call (create_request zone_id headers);
      raise_for_status create_response;;
      created ← response_json create_response;
      new_ruleset ← py_get created "result" (JObj []);
      new_ruleset_id ← py_get new_ruleset "id" JNull;
      if py_truthy new_ruleset_id then mret new_ruleset_id else mret JNull)
     (except_requests JNull) R p).2
  = record p [Exchange (create_request zone_id headers)
                       (R (wire p) (create_request zone_id headers))].
Proof. apply one_request_then_silent. intros r. repeat silent_step. Qed.

(** The creation step when the response supplies the value [v] under
    [id]: [v] is returned when it is truthy, [None] otherwise. *)
Lemma cache_creation_supplied zone_id headers R p v :
  supplied_id (R (wire p) (create_request zone_id headers)) v →
  (try_except
     (create_response ← requests_call (create_request zone_id headers);
      raise_for_status create_response;;
      created ← response_json create_response;
      new_ruleset ← py_get created "result" (JObj []);
      new_ruleset_id ← py_get new_ruleset "id" JNull;
      if py_truthy new_ruleset_id then mret new_ruleset_id else mret JNull)
     (except_requests JNull) R p).1
  = Returned (if py_truthy v then v else JNull).
Proof.
  intros (r & d & res & Ha & Hr & Hd & Hres & ->).
  unfold try_except. rewrite (read_answer _ _ R p r Ha Hr).
  rewrite bind_run, Hd. unfold py_get at 1. rewrite Hres. cbn [mret Py_ret].
  rewrite bind_run. unfold py_get. cbn [mret Py_ret].
  destruct (py_truthy _); reflexivity.
Qed.

(** The creation step when the creation request is rejected. *)
Lemma cache_creation_rejected zone_id headers R p :
  rejected (R (wire p) (create_request zone_id headers)) = true →
  (try_except
     (create_response ← requests_call (create_request zone_id headers);
      raise_for_status create_response;;
      created ← response_json create_response;
      new_ruleset ← py_get created "result" (JObj []);
      new_ruleset_id ← py_get new_ruleset "id" JNull;
      if py_truthy new_ruleset_id then mret new_ruleset_id else mret JNull)
     (except_requests JNull) R p).1
  = Returned JNull.
Proof. intros Hr. by rewrite read_rejected. Qed.

(** *** [main] when the Locator gives no identifier *)

Lemma cache_main_aborts R environ api_token zone_id rules v p :
  credentials environ api_token zone_id →
  deploy_cache_rules.find_or_create_cache_ruleset zone_id (make_headers api_token) R start
    = (Returned v, p) →
  py_truthy v = false →
  run_script (deploy_cache_rules.main_over rules environ) R = (1, p).
Proof.
  intros Hc Hloc Hv.
  unfold run_script, deploy_cache_rules.main_over.
  rewrite (guard_passes _ _ _ Hc). destruct Hc as (-> & _ & -> & _). simpl default.
  rewrite bind_run, Hloc, Hv. reflexivity.
Qed.

Lemma firewall_main_aborts R environ api_token zone_id rules v p :
  credentials environ api_token zone_id →
  deploy_securityrules.find_firewall_ruleset_id zone_id (make_headers api_token) R start
    = (Returned v, p) →
  py_truthy v = false →
  run_script (deploy_securityrules.main_over rules environ) R = (1, p).
Proof.
  intros Hc Hloc Hv.
  unfold run_script, deploy_securityrules.main_over.
  rewrite (guard_passes _ _ _ Hc). destruct Hc as (-> & _ & -> & _). simpl default.
  rewrite bind_run, Hloc, Hv. reflexivity.
Qed.

(** *** The sample runs are batch runs *)

Lemma sample_credentials : credentials sample_environ "token" "zone".
Proof. repeat split; done. Qed.

Lemma sample_dns_is_batch_run : is_batch_run sample_dns_run.
Proof.
  apply (dns_sec_settings_run one_unsupported sample_environ "token" "zone").
  exact sample_credentials.
Qed.

Lemma no_content_dns_is_batch_run : is_batch_run no_content_dns_run.
Proof.
  apply (dns_sec_settings_run dnssec_no_content sample_environ "token" "zone").
  exact sample_credentials.
Qed.

Lemma html_speed_is_batch_run : is_batch_run html_speed_run.
Proof. apply (speed_run html_bodies sample_environ "token" "zone"). exact sample_credentials. Qed.

Lemma sample_cache_is_batch_run : is_batch_run sample_cache_run.
Proof.
  apply (cache_rules_run fresh_zone sample_environ "token" "zone"
           deploy_cache_rules.rules_to_add (JStr "abc")
           (deploy_cache_rules.find_or_create_cache_ruleset "zone" sample_headers
              fresh_zone start).2).
  - exact sample_credentials.
  - reflexivity.
  - reflexivity.
Qed.

Lemma sample_firewall_is_batch_run : is_batch_run sample_firewall_run.
Proof.
  apply (securityrules_run second_write_fails sample_environ "token" "zone"
           deploy_securityrules.rules_to_add (JStr "f1")
           (deploy_securityrules.find_firewall_ruleset_id "zone" sample_headers
              second_write_fails start).2).
  - exact sample_credentials.
  - reflexivity.
  - reflexivity.
Qed.

(** *** The model at work: a listing that is not a list *)

(** When the enumeration answers [{"result": null}], [for ruleset in
    rulesets] raises [TypeError], which neither [except] clause catches:
    the cache script ends with status 1 after its one request. *)
Example null_listing_ends_the_run :
  let null_zone : remote := λ _ _, Answered (Response 200 (JObj [("result", JNull)])) in
  deploy_cache_rules.find_or_create_cache_ruleset "zone" sample_headers null_zone start
  = (Raised TypeError,
     {| wire := [Exchange (list_request "zone" sample_headers)
                          (Answered (Response 200 (JObj [("result", JNull)])))];
        stdout := [] |}) ∧
  (run_script (deploy_cache_rules.main sample_environ) null_zone).1 = 1.
Proof. split; reflexivity. Qed.

(* ===================================================================== *)
(** ** The Batch Mutation Applier *)
(* ===================================================================== *)

(** C2, at a failing input.  The DNS/TLS script sends its six mutations.
    The remote system rejects exactly one of them ([min_tls_version], HTTP
    404) and accepts the other five; its answer to the DNSSEC update is a
    204 No Content.  All six requests go over the wire, in order.  The
    claim gives a tally of 5 of 6.  The script prints 4 of 6: on the
    accepted DNSSEC update [response.json()] raises inside the [try],
    after [raise_for_status] has passed, the second [except] clause
    catches it and [update_dnssec_setting] returns [False]. *)
Theorem accepted_without_json_is_not_counted :
  is_batch_run no_content_dns_run ∧
  length (br_mutations no_content_dns_run) = 6%nat ∧
  map sent (mutation_exchanges no_content_dns_run) = br_mutations no_content_dns_run ∧
  rejections (remote_answers no_content_dns_run) = 1%nat ∧
  stdout (br_final no_content_dns_run) = [mkTally 4 6] ∧
  br_exit no_content_dns_run = 1.
Proof.
  split; [exact no_content_dns_is_batch_run|]. repeat split.
Qed.

(** C3, at a failing input.  The speed script sends its three settings;
    the remote system accepts every one of them with status 200 and a body
    that is not JSON.  The claim gives a tally of 3 of 3 and exit status 0.
    The script prints 0 of 3 and exits with status 1: in each call
    [response.json()] raises inside the [try] and [update_zone_setting]
    returns [False]. *)
Theorem all_accepted_yet_exit_one :
  is_batch_run html_speed_run ∧
  Forall (λ x, accepted (got x) = true) (remote_answers html_speed_run) ∧
  map sent (mutation_exchanges html_speed_run) = br_mutations html_speed_run ∧
  stdout (br_final html_speed_run) = [mkTally 0 3] ∧
  br_exit html_speed_run = 1.
Proof.
  split; [exact html_speed_is_batch_run|]. split; [repeat constructor|]. repeat split.
Qed.

(** C8.  In every batch run, for every remote system (whatever it answers
    to earlier mutations): the requests on the wire after the Locator's
    exchanges are exactly the write requests of the mutations, one per
    mutation and in the order of the input list, each sent after the reply
    to the one before it. *)
Theorem batch_requests_in_input_order (b : batch_run) :
  is_batch_run b →
  wire (br_final b) = br_before b ++ mutation_exchanges b ∧
  map sent (mutation_exchanges b) = br_mutations b ∧
  mutation_exchanges b = converse (br_remote b) (br_before b) (br_mutations b).
Proof.
  intros Hb. apply batch_run_expected in Hb.
  destruct b as [R before muts ex fin]. unfold expected_run in Hb. simpl in Hb.
  injection Hb as -> ->.
  unfold mutation_exchanges. simpl.
  by rewrite drop_app_length, map_sent_converse.
Qed.

Lemma batch_requests_in_input_order_witness :
  is_batch_run sample_firewall_run ∧
  map sent (mutation_exchanges sample_firewall_run)
  = [deploy_securityrules.add_rule_request "zone" (JStr "f1") sample_headers
       deploy_securityrules.geo_block_rule;
     deploy_securityrules.add_rule_request "zone" (JStr "f1") sample_headers
       deploy_securityrules.scanner_block_rule] ∧
  map (λ x, accepted (got x)) (mutation_exchanges sample_firewall_run) = [true; false].
Proof.
  split; [exact sample_firewall_is_batch_run|].
  destruct (batch_requests_in_input_order sample_firewall_run sample_firewall_is_batch_run)
    as (_ & Hsent & _).
  split; [exact Hsent|reflexivity].
Defined.

(* ===================================================================== *)
(** ** Credentials, verbs *)
(* ===================================================================== *)

(** C6.  When [CLOUDFLARE_API_TOKEN] or [ZONE_ID] is unset or empty, each
    of the six scripts, for every remote system and every list of
    mutations, ends with status 1 and an empty wire: no request was
    issued (and nothing was tallied). *)
Theorem missing_credentials_abort (environ : gmap string string) (R : remote)
    (rules : list dict) (settings : list setting) :
  unset_or_empty environ "CLOUDFLARE_API_TOKEN" ∨ unset_or_empty environ "ZONE_ID" →
  run_script (deploy_cache_rules.main_over rules environ) R = (1, start) ∧
  run_script (deploy_securityrules.main_over rules environ) R = (1, start) ∧
  run_script (deploy_rate_limiting.main environ) R = (1, start) ∧
  run_script (deploy_dns_sec_settings.main_over settings environ) R = (1, start) ∧
  run_script (deploy_sec_settings.main_over settings environ) R = (1, start) ∧
  run_script (deploy_speed.main_over settings environ) R = (1, start).
Proof.
  intros H. apply guard_stops in H.
  unfold run_script, deploy_cache_rules.main_over, deploy_securityrules.main_over,
    deploy_rate_limiting.main, deploy_dns_sec_settings.main_over,
    deploy_sec_settings.main_over, deploy_speed.main_over.
  rewrite H. repeat split.
Qed.

Lemma missing_credentials_abort_witness :
  (unset_or_empty (<["CLOUDFLARE_API_TOKEN" := "token"]> ∅ : gmap string string)
                  "CLOUDFLARE_API_TOKEN" ∨
   unset_or_empty (<["CLOUDFLARE_API_TOKEN" := "token"]> ∅ : gmap string string) "ZONE_ID") ∧
  run_script (deploy_cache_rules.main (<["CLOUDFLARE_API_TOKEN" := "token"]> ∅)) fresh_zone
  = (1, start).
Proof.
  assert (unset_or_empty (<["CLOUDFLARE_API_TOKEN" := "token"]> ∅ : gmap string string)
                         "CLOUDFLARE_API_TOKEN" ∨
          unset_or_empty (<["CLOUDFLARE_API_TOKEN" := "token"]> ∅ : gmap string string)
                         "ZONE_ID") as H.
  { right. left. reflexivity. }
  split; [exact H|].
  exact (proj1 (missing_credentials_abort _ fresh_zone deploy_cache_rules.rules_to_add [] H)).
Defined.

(** C7.  In every run of the rate-limit script, for every environment and
    every remote system: at most one request goes over the wire; every
    request on the wire is the full-replace request (PUT on the entrypoint
    of phase [http_ratelimit], carrying the whole [rules] list); none is an
    append-rule request.  When the credentials are set the wire holds
    exactly that one request, and the exit status is 0 when
    [deploy_rate_limit_ruleset] reports a success (a status that is no
    error status and a body that decodes) and 1 otherwise. *)
Theorem rate_limit_full_replace (R : remote) (environ : gmap string string) :
  Forall (λ x, is_full_replace (sent x))
         (wire (run_script (deploy_rate_limiting.main environ) R).2) ∧
  (length (wire (run_script (deploy_rate_limiting.main environ) R).2) ≤ 1)%nat ∧
  count_requests is_append (wire (run_script (deploy_rate_limiting.main environ) R).2) = 0%nat ∧
  (∀ api_token zone_id,
     credentials environ api_token zone_id →
     let q := deploy_rate_limiting.deploy_request zone_id (make_headers api_token) in
     run_script (deploy_rate_limiting.main environ) R
     = (if reported_success (R [] q) then 0 else 1,
        {| wire := [Exchange q (R [] q)]; stdout := [] |})).
Proof.
  assert (∀ api_token zone_id,
            credentials environ api_token zone_id →
            let q := deploy_rate_limiting.deploy_request zone_id (make_headers api_token) in
            run_script (deploy_rate_limiting.main environ) R
            = (if reported_success (R [] q) then 0 else 1,
               {| wire := [Exchange q (R [] q)]; stdout := [] |})) as Hrun.
  { intros api_token zone_id Hc q.
    unfold run_script, deploy_rate_limiting.main.
    rewrite (guard_passes _ _ _ Hc). destruct Hc as (-> & _ & -> & _). simpl default.
    rewrite bind_run, rate_limit_once. fold q. simpl.
    destruct (reported_success (R [] q)); reflexivity. }
  assert (wire (run_script (deploy_rate_limiting.main environ) R).2 = [] ∨
          ∃ zone_id api_token a,
            wire (run_script (deploy_rate_limiting.main environ) R).2
            = [Exchange (deploy_rate_limiting.deploy_request zone_id (make_headers api_token)) a])
    as Hwire.
  { destruct (not_set (environ !! "CLOUDFLARE_API_TOKEN") || not_set (environ !! "ZONE_ID"))
      eqn:Hguard.
    - left. unfold run_script, deploy_rate_limiting.main. by rewrite Hguard.
    - right. apply orb_false_elim in Hguard as [Ht Hz].
      destruct (environ !! "CLOUDFLARE_API_TOKEN") as [api_token|] eqn:Et; [|done].
      destruct (environ !! "ZONE_ID") as [zone_id|] eqn:Ez; [|done].
      simpl in Ht, Hz. apply String.eqb_neq in Ht, Hz.
      exists zone_id, api_token. eexists.
      rewrite (Hrun api_token zone_id); [reflexivity|by repeat split]. }
  split; [|split; [|split]]; [| | |exact Hrun];
    destruct Hwire as [-> | (zone_id & api_token & a & ->)]; simpl.
  - constructor.
  - constructor; [|constructor]. split; [done|]. split; [by exists zone_id|done].
  - lia.
  - lia.
  - reflexivity.
  - reflexivity.
Qed.

Lemma rate_limit_full_replace_witness :
  credentials sample_environ "token" "zone" ∧
  run_script (deploy_rate_limiting.main sample_environ) failing_zone
  = (1, {| wire := [Exchange (deploy_rate_limiting.deploy_request "zone" sample_headers)
                             (Answered (Response 500 (JObj [("success", JBool false)])))];
           stdout := [] |}).
Proof.
  split; [exact sample_credentials|].
  exact (proj2 (proj2 (proj2 (rate_limit_full_replace failing_zone sample_environ)))
           "token" "zone" sample_credentials).
Defined.

(** C9.  Write verbs.  The page-shield update and the bot-fight-mode
    update each issue one PUT (full replace) on their own endpoint; the
    DNSSEC update issues one PATCH (partial update) on its own endpoint;
    the generic setting updater of each of the three settings scripts
    issues one PATCH on the per-setting endpoint.  So exactly two of the
    three special-endpoint updates use the full-replace verb. *)
Theorem special_endpoint_verbs (zone_id : string) (headers : headers_t)
    (setting_name friendly_name : string) (payload : dict) :
  issues_one (deploy_sec_settings.update_page_shield_setting zone_id headers)
             PUT (zone_page_shield zone_id) ∧
  issues_one (deploy_sec_settings.update_bot_fight_mode zone_id headers)
             PUT (zone_bot_management zone_id) ∧
  issues_one (deploy_dns_sec_settings.update_dnssec_setting zone_id headers)
             PATCH (zone_dnssec zone_id) ∧
  issues_one (deploy_dns_sec_settings.update_zone_setting zone_id headers
                setting_name friendly_name payload)
             PATCH (zone_setting zone_id setting_name) ∧
  issues_one (deploy_sec_settings.update_zone_setting zone_id headers
                setting_name friendly_name payload)
             PATCH (zone_setting zone_id setting_name) ∧
  issues_one (deploy_speed.update_zone_setting zone_id headers
                setting_name friendly_name payload)
             PATCH (zone_setting zone_id setting_name) ∧
  PUT ≠ PATCH.
Proof.
  repeat split; try done; intros R p.
  - rewrite page_shield_once. by eexists.
  - rewrite bot_fight_once. by eexists.
  - rewrite dnssec_once. by eexists.
  - rewrite (dns_update_zone_once zone_id headers (Setting setting_name friendly_name payload)).
    by eexists.
  - rewrite (sec_update_zone_once zone_id headers (Setting setting_name friendly_name payload)).
    by eexists.
  - rewrite (speed_update_zone_once zone_id headers (Setting setting_name friendly_name payload)).
    by eexists.
Qed.

(* ===================================================================== *)
(** ** The Resource Locator *)
(* ===================================================================== *)

(** C4.  Whenever the enumeration succeeds and lists the containers [cs],
    and [c] is the first of them, in the order of the response, of kind
    ['zone'] and the script's phase: the Locator (of the cache script, and
    of the firewall script) returns the value under [id] of [c], and the
    enumeration request is the only request it issued; no creation request
    went out. *)
Theorem locator_returns_first_match (R : remote) (zone_id : string) (headers : headers_t)
    (p : process) (cs : list dict) (c : dict) :
  enumerated (R (wire p) (list_request zone_id headers)) cs →
  (List.find (is_container deploy_cache_rules.phase) cs = Some c →
   deploy_cache_rules.find_or_create_cache_ruleset zone_id headers R p
   = (Returned (container_id c),
      record p [Exchange (list_request zone_id headers)
                         (R (wire p) (list_request zone_id headers))])) ∧
  (List.find (is_container deploy_securityrules.phase) cs = Some c →
   deploy_securityrules.find_firewall_ruleset_id zone_id headers R p
   = (Returned (container_id c),
      record p [Exchange (list_request zone_id headers)
                         (R (wire p) (list_request zone_id headers))])) ∧
  count_requests is_creation
    [Exchange (list_request zone_id headers) (R (wire p) (list_request zone_id headers))]
  = 0%nat.
Proof.
  intros He. split; [|split]; [| |reflexivity]; intros Hc.
  - by apply cache_locator_existing with cs.
  - rewrite (firewall_locator_listed _ _ _ _ cs He), Hc. reflexivity.
Qed.

Lemma sample_enumerated :
  enumerated (provisioned_zone [] (list_request "zone" sample_headers)) sample_listing.
Proof. eexists. repeat split. Qed.

Lemma locator_returns_first_match_witness :
  enumerated (provisioned_zone (wire start) (list_request "zone" sample_headers))
             sample_listing ∧
  List.find (is_container deploy_cache_rules.phase) sample_listing
  = Some (cache_container "c1") ∧
  deploy_cache_rules.find_or_create_cache_ruleset "zone" sample_headers provisioned_zone start
  = (Returned (JStr "c1"),
     record start [Exchange (list_request "zone" sample_headers)
                            (provisioned_zone [] (list_request "zone" sample_headers))]).
Proof.
  split; [exact sample_enumerated|]. split; [reflexivity|].
  exact (proj1 (locator_returns_first_match provisioned_zone "zone" sample_headers start
                  sample_listing (cache_container "c1") sample_enumerated) eq_refl).
Defined.

(** C1, as worded, for the firewall script: its Locator does not create.
    Against a zone that lists no ruleset the enumeration succeeds, nothing
    matches, and the number of creation requests is 0, not 1. *)
Lemma firewall_locator_does_not_create :
  enumerated (fresh_zone [] (list_request "zone" sample_headers)) [] ∧
  List.find (is_container deploy_securityrules.phase) [] = None ∧
  deploy_securityrules.find_firewall_ruleset_id "zone" sample_headers fresh_zone start
  = (Returned JNull,
     {| wire := [Exchange (list_request "zone" sample_headers)
                          (Answered (Response 200 (JObj [("result", JArr [])])))];
        stdout := [] |}) ∧
  ¬ creates_when_missing deploy_securityrules.find_firewall_ruleset_id
      deploy_securityrules.phase.
Proof.
  assert (enumerated (fresh_zone [] (list_request "zone" sample_headers)) []) as He.
  { eexists. repeat split. }
  split; [exact He|]. split; [reflexivity|]. split; [reflexivity|].
  intros H.
  specialize (H fresh_zone "zone" sample_headers [] He eq_refl).
  vm_compute in H. discriminate H.
Qed.

(** C1, amended.  When the enumeration succeeds and lists no container of
    kind ['zone'] and the cache phase, the Locator of the cache script
    issues exactly one creation request, right after the enumeration:
    these two exchanges are all it leaves on the wire.  If the creation
    response supplies a value under [id] that is truthy (a non-empty
    identifier), the Locator returns that value.  If the value is absent,
    [None] or otherwise falsy, the Locator returns [None], and [main] exits
    with status 1 with only those two exchanges on the wire: no mutation
    was attempted.  The Locator of the firewall script issues no creation
    request at all. *)
Theorem cache_locator_creates_once (R : remote) (environ : gmap string string)
    (api_token zone_id : string) (rules : list dict) (cs : list dict) :
  credentials environ api_token zone_id →
  let headers := make_headers api_token in
  let list_x := Exchange (list_request zone_id headers) (R [] (list_request zone_id headers)) in
  let create_x :=
    Exchange (create_request zone_id headers) (R [list_x] (create_request zone_id headers)) in
  let after := {| wire := [list_x; create_x]; stdout := [] |} in
  enumerated (got list_x) cs →
  List.find (is_container deploy_cache_rules.phase) cs = None →
  (deploy_cache_rules.find_or_create_cache_ruleset zone_id headers R start).2 = after ∧
  count_requests is_creation (wire after) = 1%nat ∧
  (∀ v, supplied_id (got create_x) v → py_truthy v = true →
        deploy_cache_rules.find_or_create_cache_ruleset zone_id headers R start
        = (Returned v, after)) ∧
  (∀ v, supplied_id (got create_x) v → py_truthy v = false →
        deploy_cache_rules.find_or_create_cache_ruleset zone_id headers R start
        = (Returned JNull, after) ∧
        run_script (deploy_cache_rules.main_over rules environ) R = (1, after)) ∧
  count_requests is_creation
    (wire (deploy_securityrules.find_firewall_ruleset_id zone_id headers R start).2) = 0%nat.
Proof.
  intros Hc headers list_x create_x after He Hnone.
  pose proof (cache_locator_missing zone_id headers R start cs He Hnone) as Hrun.
  pose proof (cache_creation_wire zone_id headers R (record start [list_x])) as Hwire.
  assert (∀ v, supplied_id (got create_x) v →
               deploy_cache_rules.find_or_create_cache_ruleset zone_id headers R start
               = (Returned (if py_truthy v then v else JNull), after)) as Hsup.
  { intros v Hv.
    rewrite Hrun. apply injective_projections.
    - exact (cache_creation_supplied zone_id headers R (record start [list_x]) v Hv).
    - exact Hwire. }
  split; [|split; [|split; [|split]]].
  - rewrite Hrun. exact Hwire.
  - reflexivity.
  - intros v Hv Ht. by rewrite (Hsup v Hv), Ht.
  - intros v Hv Ht. specialize (Hsup v Hv). rewrite Ht in Hsup. split; [exact Hsup|].
    by apply (cache_main_aborts R environ api_token zone_id rules JNull after).
  - by rewrite firewall_locator_wire.
Qed.

Lemma fresh_zone_enumerated (R : remote) :
  R [] (list_request "zone" sample_headers)
  = Answered (Response 200 (JObj [("result", JArr [])])) →
  enumerated (R [] (list_request "zone" sample_headers)) [].
Proof. intros ->. eexists. repeat split. Qed.

Lemma cache_locator_creates_once_witness :
  credentials sample_environ "token" "zone" ∧
  deploy_cache_rules.find_or_create_cache_ruleset "zone" sample_headers fresh_zone start
  = (Returned (JStr "abc"),
     {| wire := [Exchange (list_request "zone" sample_headers)
                          (Answered (Response 200 (JObj [("result", JArr [])])));
                 Exchange (create_request "zone" sample_headers)
                          (Answered (Response 200
                                       (JObj [("result", JObj [("id", JStr "abc")])])))];
        stdout := [] |}) ∧
  (run_script (deploy_cache_rules.main sample_environ) fresh_zone_no_id).1 = 1.
Proof.
  split; [exact sample_credentials|]. split.
  - refine (proj1 (proj2 (proj2
      (cache_locator_creates_once fresh_zone sample_environ "token" "zone" [] []
         sample_credentials (fresh_zone_enumerated fresh_zone eq_refl) eq_refl)))
      (JStr "abc") _ eq_refl).
    by eexists _, _, _.
  - refine (f_equal fst (proj2 (proj1 (proj2 (proj2 (proj2
      (cache_locator_creates_once fresh_zone_no_id sample_environ "token" "zone"
         deploy_cache_rules.rules_to_add []
         sample_credentials (fresh_zone_enumerated fresh_zone_no_id eq_refl) eq_refl))))
      JNull _ eq_refl))).
    by eexists _, _, _.
Defined.

(** C5, as worded, fails for a status that is neither 2xx nor an error
    status.  Against [status_300_zone] the enumeration is answered with
    status 300; [raise_for_status] does not raise, the Locator reads the
    listing and returns [abc], both rules are appended and the process
    ends with status 0. *)
Lemma status_300_does_not_abort :
  not_2xx (status_300_zone [] (list_request "zone" sample_headers)) ∧
  (run_script (deploy_cache_rules.main sample_environ) status_300_zone).1 = 0 ∧
  count_requests is_append
    (wire (run_script (deploy_cache_rules.main sample_environ) status_300_zone).2) = 2%nat ∧
  ¬ aborts_when_not_2xx deploy_cache_rules.main.
Proof.
  assert (not_2xx (status_300_zone [] (list_request "zone" sample_headers))) as Hn.
  { simpl. lia. }
  split; [exact Hn|]. split; [reflexivity|]. split; [reflexivity|].
  intros H.
  destruct (H status_300_zone sample_environ "token" "zone" sample_credentials Hn)
    as [Hexit _].
  vm_compute in Hexit. discriminate Hexit.
Qed.

(** C5, amended.  When the enumeration is rejected (no response, or a
    response with an error status, 400 to 599, the statuses on which
    [raise_for_status] raises), the Locator of the cache script and the
    Locator of the firewall script return [None]; [main] exits with status
    1, and the enumeration request is the only request on the wire: no
    mutation request was issued. *)
Theorem locator_failure_aborts (R : remote) (environ : gmap string string)
    (api_token zone_id : string) (rules : list dict) :
  credentials environ api_token zone_id →
  let headers := make_headers api_token in
  let list_x := Exchange (list_request zone_id headers) (R [] (list_request zone_id headers)) in
  let after := {| wire := [list_x]; stdout := [] |} in
  rejected (got list_x) = true →
  deploy_cache_rules.find_or_create_cache_ruleset zone_id headers R start
    = (Returned JNull, after) ∧
  run_script (deploy_cache_rules.main_over rules environ) R = (1, after) ∧
  deploy_securityrules.find_firewall_ruleset_id zone_id headers R start
    = (Returned JNull, after) ∧
  run_script (deploy_securityrules.main_over rules environ) R = (1, after) ∧
  count_requests is_append (wire after) = 0%nat.
Proof.
  intros Hc headers list_x after Hrej.
  pose proof (cache_locator_fails zone_id headers R start Hrej) as Hcache.
  pose proof (firewall_locator_fails zone_id headers R start Hrej) as Hfw.
  split; [exact Hcache|]. split.
  { by apply (cache_main_aborts R environ api_token zone_id rules JNull after). }
  split; [exact Hfw|]. split; [|reflexivity].
  by apply (firewall_main_aborts R environ api_token zone_id rules JNull after).
Qed.

Lemma locator_failure_aborts_witness :
  credentials sample_environ "token" "zone" ∧
  rejected (failing_zone [] (list_request "zone" sample_headers)) = true ∧
  run_script (deploy_cache_rules.main sample_environ) failing_zone
  = (1, {| wire := [Exchange (list_request "zone" sample_headers)
                             (Answered (Response 500 (JObj [("success", JBool false)])))];
           stdout := [] |}).
Proof.
  split; [exact sample_credentials|]. split; [reflexivity|].
  exact (proj1 (proj2 (locator_failure_aborts failing_zone sample_environ "token" "zone"
                         deploy_cache_rules.rules_to_add sample_credentials eq_refl))).
Defined.

(** C10.  The Locator of the firewall script is read-only.  In every
    call, whatever the remote system answers, it leaves exactly one
    exchange on the wire: its enumeration request, a GET.  When the
    enumeration succeeds and lists no container of kind ['zone'] and phase
    [http_request_firewall_custom], it returns [None] and [main] exits with
    status 1, with that one read request as the only request of the run. *)
Theorem firewall_locator_read_only :
  (∀ (R : remote) (zone_id : string) (headers : headers_t) (p : process),
     (deploy_securityrules.find_firewall_ruleset_id zone_id headers R p).2
     = record p [Exchange (list_request zone_id headers)
                          (R (wire p) (list_request zone_id headers))] ∧
     is_read (list_request zone_id headers) = true) ∧
  (∀ (R : remote) (environ : gmap string string) (api_token zone_id : string)
     (rules : list dict) (cs : list dict),
     credentials environ api_token zone_id →
     let headers := make_headers api_token in
     let list_x :=
       Exchange (list_request zone_id headers) (R [] (list_request zone_id headers)) in
     enumerated (got list_x) cs →
     List.find (is_container deploy_securityrules.phase) cs = None →
     deploy_securityrules.find_firewall_ruleset_id zone_id headers R start
       = (Returned JNull, {| wire := [list_x]; stdout := [] |}) ∧
     run_script (deploy_securityrules.main_over rules environ) R
       = (1, {| wire := [list_x]; stdout := [] |})).
Proof.
  split.
  - intros R zone_id headers p. split; [apply firewall_locator_wire|reflexivity].
  - intros R environ api_token zone_id rules cs Hc headers list_x He Hnone.
    pose proof (firewall_locator_listed zone_id headers R start cs He) as Hloc.
    rewrite Hnone in Hloc. split; [exact Hloc|].
    by apply (firewall_main_aborts R environ api_token zone_id rules JNull
                {| wire := [list_x]; stdout := [] |}).
Qed.

Lemma firewall_locator_read_only_witness :
  credentials sample_environ "token" "zone" ∧
  run_script (deploy_securityrules.main sample_environ) fresh_zone
  = (1, {| wire := [Exchange (list_request "zone" sample_headers)
                             (Answered (Response 200 (JObj [("result", JArr [])])))];
           stdout := [] |}).
Proof.
  split; [exact sample_credentials|].
  exact (proj2 (proj2 firewall_locator_read_only fresh_zone sample_environ "token" "zone"
                  deploy_securityrules.rules_to_add [] sample_credentials
                  (fresh_zone_enumerated fresh_zone eq_refl) eq_refl)).
Defined.

(* ===================================================================== *)
(** ** Whole runs: what a script never does *)
(* ===================================================================== *)

(** *** Steps that never call [sys.exit] *)

Lemma never_exits_ret {A : Type} (a : A) : never_exits (mret a).
Proof. by intros R p c. Qed.

Lemma never_exits_bind {A B : Type} (m : Py A) (f : A → Py B) :
  never_exits m → (∀ a, never_exits (f a)) → never_exits (m ≫= f).
Proof.
  intros Hm Hf R p c. rewrite bind_run. specialize (Hm R p c).
  destruct (m R p) as [[a|e] p']; simpl in *; [apply Hf|].
  intros [= ->]. by apply Hm.
Qed.

Lemma never_exits_try_except {A : Type} (body : Py A) (failure : A) :
  never_exits body → never_exits (try_except body (except_requests failure)).
Proof.
  intros Hb R p c. unfold try_except. specialize (Hb R p).
  destruct (body R p) as [[a|e] p']; simpl in *; [done|].
  destruct e; simpl; done.
Qed.

Lemma never_exits_requests_call (q : request) : never_exits (requests_call q).
Proof. intros R p c. unfold requests_call. by destruct (arrived (R (wire p) q)). Qed.

Lemma never_exits_raise_for_status (r : received) : never_exits (raise_for_status r).
Proof. intros R p c. unfold raise_for_status. by destruct (error_status _). Qed.

Lemma never_exits_response_json (r : received) : never_exits (response_json r).
Proof. intros R p c. unfold response_json. by destruct (rcv_json r). Qed.

Lemma never_exits_py_get (v : json) (key : string) (default : json) :
  never_exits (py_get v key default).
Proof. intros R p c. by destruct v. Qed.

Lemma never_exits_py_iter (v : json) : never_exits (py_iter v).
Proof. intros R p c. by destruct v. Qed.

Create HintDb never_exits.
#[global] Hint Resolve never_exits_ret never_exits_requests_call never_exits_raise_for_status
  never_exits_response_json never_exits_py_get never_exits_py_iter : never_exits.

Ltac never_exits_step :=
  first
    [ progress auto with never_exits
    | apply never_exits_bind; [|intros ?]
    | apply never_exits_try_except
    | match goal with
      | |- never_exits (if ?b then _ else _) => destruct b
      | |- never_exits (match ?o with Some _ => _ | None => _ end) => destruct o
      end ].

Lemma never_exits_cache_scan (rulesets : list json) :
  never_exits (deploy_cache_rules.scan_rulesets rulesets).
Proof. induction rulesets as [|ruleset rest IH]; simpl; repeat never_exits_step. Qed.

Lemma never_exits_cache_locator (zone_id : string) (headers : headers_t) :
  never_exits (deploy_cache_rules.find_or_create_cache_ruleset zone_id headers).
Proof.
  pose proof never_exits_cache_scan.
  unfold deploy_cache_rules.find_or_create_cache_ruleset, requests_get, requests_post.
  repeat never_exits_step.
Qed.

Lemma never_exits_firewall_scan (rulesets : list json) :
  never_exits (deploy_securityrules.scan_rulesets rulesets).
Proof. induction rulesets as [|ruleset rest IH]; simpl; repeat never_exits_step. Qed.

Lemma never_exits_firewall_debug (rulesets : list json) :
  never_exits (deploy_securityrules.debug_print rulesets).
Proof. induction rulesets as [|ruleset rest IH]; simpl; repeat never_exits_step. Qed.

Lemma never_exits_firewall_locator (zone_id : string) (headers : headers_t) :
  never_exits (deploy_securityrules.find_firewall_ruleset_id zone_id headers).
Proof.
  pose proof never_exits_firewall_scan. pose proof never_exits_firewall_debug.
  unfold deploy_securityrules.find_firewall_ruleset_id, deploy_securityrules.debug_block,
    requests_get.
  repeat never_exits_step.
Qed.

Lemma exit_status_no_exit {A : Type} (e : exn) :
  (∀ c, e ≠ SystemExit c) → exit_status (@Raised A e) = 1.
Proof. intros He. destruct e; try done. by destruct (He code). Qed.

(** *** The credential guard, the other way round *)

Lemma guard_credentials (environ : gmap string string) :
  not_set (environ !! "CLOUDFLARE_API_TOKEN") || not_set (environ !! "ZONE_ID") = false →
  ∃ api_token zone_id, credentials environ api_token zone_id.
Proof.
  intros [Ht Hz]%orb_false_elim.
  destruct (environ !! "CLOUDFLARE_API_TOKEN") as [api_token|] eqn:Et; [|done].
  destruct (environ !! "ZONE_ID") as [zone_id|] eqn:Ez; [|done].
  simpl in Ht, Hz. apply String.eqb_neq in Ht, Hz.
  exists api_token, zone_id. by unfold credentials.
Qed.

Lemma guard_decides (environ : gmap string string) :
  (unset_or_empty environ "CLOUDFLARE_API_TOKEN" ∨ unset_or_empty environ "ZONE_ID") ∨
  ∃ api_token zone_id, credentials environ api_token zone_id.
Proof.
  destruct (not_set (environ !! "CLOUDFLARE_API_TOKEN") || not_set (environ !! "ZONE_ID"))
    eqn:Hg.
  - left. apply orb_true_iff in Hg. by rewrite !not_set_unset_or_empty.
  - right. by apply guard_credentials.
Qed.

(** *** Every run of a container script, case by case *)

(** Past the guard, the cache script does one of three things: the Locator
    raises, and the process ends with status 1; the Locator returns a
    falsy value, and [main] exits with status 1; the Locator returns a
    truthy identifier, and the run is the expected batch run. *)
Lemma cache_main_cases R environ api_token zone_id rules :
  credentials environ api_token zone_id →
  run_script (deploy_cache_rules.main_over rules environ) R
  = match deploy_cache_rules.find_or_create_cache_ruleset zone_id (make_headers api_token)
            R start with
    | (Returned v, p) =>
        if py_truthy v
        then let b := expected_run R (wire p)
                        (map (deploy_cache_rules.add_rule_request zone_id v
                                (make_headers api_token)) rules) in
             (br_exit b, br_final b)
        else (1, p)
    | (Raised e, p) => (1, p)
    end.
Proof.
  intros Hc.
  pose proof (never_exits_cache_locator zone_id (make_headers api_token) R start) as Hne.
  destruct (deploy_cache_rules.find_or_create_cache_ruleset zone_id (make_headers api_token)
              R start) as [[v|e] p] eqn:Hloc.
  - destruct (py_truthy v) eqn:Hv.
    + pose proof (cache_main_batch R environ api_token zone_id rules v p Hc Hloc Hv) as Hb.
      rewrite <- Hb. unfold observe. simpl. apply surjective_pairing.
    + by apply (cache_main_aborts R environ api_token zone_id rules v p).
  - unfold run_script, deploy_cache_rules.main_over.
    rewrite (guard_passes _ _ _ Hc). destruct Hc as (-> & _ & -> & _). simpl default.
    rewrite bind_run, Hloc. simpl in Hne.
    rewrite exit_status_no_exit; [done|]. intros c ->. by apply (Hne c).
Qed.

Lemma firewall_main_cases R environ api_token zone_id rules :
  credentials environ api_token zone_id →
  run_script (deploy_securityrules.main_over rules environ) R
  = match deploy_securityrules.find_firewall_ruleset_id zone_id (make_headers api_token)
            R start with
    | (Returned v, p) =>
        if py_truthy v
        then let b := expected_run R (wire p)
                        (map (deploy_securityrules.add_rule_request zone_id v
                                (make_headers api_token)) rules) in
             (br_exit b, br_final b)
        else (1, p)
    | (Raised e, p) => (1, p)
    end.
Proof.
  intros Hc.
  pose proof (never_exits_firewall_locator zone_id (make_headers api_token) R start) as Hne.
  destruct (deploy_securityrules.find_firewall_ruleset_id zone_id (make_headers api_token)
              R start) as [[v|e] p] eqn:Hloc.
  - destruct (py_truthy v) eqn:Hv.
    + pose proof (firewall_main_batch R environ api_token zone_id rules v p Hc Hloc Hv) as Hb.
      rewrite <- Hb. unfold observe. simpl. apply surjective_pairing.
    + by apply (firewall_main_aborts R environ api_token zone_id rules v p).
  - unfold run_script, deploy_securityrules.main_over.
    rewrite (guard_passes _ _ _ Hc). destruct Hc as (-> & _ & -> & _). simpl default.
    rewrite bind_run, Hloc. simpl in Hne.
    rewrite exit_status_no_exit; [done|]. intros c ->. by apply (Hne c).
Qed.

(** *** Every run of a settings script *)

Lemma observed_run R before mutations main :
  observe R before mutations main = expected_run R before mutations →
  run_script main R
  = (br_exit (expected_run R before mutations), br_final (expected_run R before mutations)).
Proof. intros <-. unfold observe. simpl. apply surjective_pairing. Qed.

Lemma rate_limit_main_run R environ api_token zone_id :
  credentials environ api_token zone_id →
  run_script (deploy_rate_limiting.main environ) R
  = (if reported_success
          (R [] (deploy_rate_limiting.deploy_request zone_id (make_headers api_token)))
     then 0 else 1,
     {| wire := [Exchange (deploy_rate_limiting.deploy_request zone_id (make_headers api_token))
                          (R [] (deploy_rate_limiting.deploy_request zone_id
                                   (make_headers api_token)))];
        stdout := [] |}).
Proof.
  intros Hc. unfold run_script, deploy_rate_limiting.main.
  rewrite (guard_passes _ _ _ Hc). destruct Hc as (-> & _ & -> & _). simpl default.
  rewrite bind_run, rate_limit_once. simpl.
  destruct (reported_success _); reflexivity.
Qed.

(** *** Reading the exit status of a batch *)

Lemma expected_exit_zero_or_one R before mutations :
  br_exit (expected_run R before mutations) = 0 ∨
  br_exit (expected_run R before mutations) = 1.
Proof. unfold expected_run. simpl. destruct (_ <? _)%nat; [by right|by left]. Qed.

Lemma expected_exit_zero R before mutations :
  br_exit (expected_run R before mutations) = 0 →
  br_final (expected_run R before mutations)
  = {| wire := before ++ converse R before mutations;
       stdout := [mkTally (length mutations) (length mutations)] |} ∧
  Forall (λ x, accepted (got x) = true) (converse R before mutations).
Proof.
  unfold expected_run. simpl.
  pose proof (reported_successes_le (converse R before mutations)) as Hle.
  rewrite length_converse in Hle.
  destruct (Nat.ltb_spec (reported_successes (converse R before mutations))
              (length mutations)); [done|].
  intros _.
  assert (reported_successes (converse R before mutations) = length mutations) as Heq
    by lia.
  rewrite Heq. split; [done|].
  eapply Forall_impl; [apply reported_successes_full; by rewrite length_converse|].
  intros x Hx. by apply reported_success_accepted.
Qed.

(** X1.  The exit status of each of the six scripts is 0 or 1, for every
    environment, every remote system and every list of mutations: also
    when the Locator raises an exception no [except] clause catches. *)
Theorem exit_status_zero_or_one (environ : gmap string string) (R : remote)
    (rules : list dict) (settings : list setting) :
  let binary (status : Z) := status = 0 ∨ status = 1 in
  binary (run_script (deploy_cache_rules.main_over rules environ) R).1 ∧
  binary (run_script (deploy_securityrules.main_over rules environ) R).1 ∧
  binary (run_script (deploy_rate_limiting.main environ) R).1 ∧
  binary (run_script (deploy_dns_sec_settings.main_over settings environ) R).1 ∧
  binary (run_script (deploy_sec_settings.main_over settings environ) R).1 ∧
  binary (run_script (deploy_speed.main_over settings environ) R).1.
Proof.
  intros binary. unfold binary.
  destruct (guard_decides environ) as [Hmiss|(api_token & zone_id & Hc)].
  - apply guard_stops in Hmiss.
    unfold run_script, deploy_cache_rules.main_over, deploy_securityrules.main_over,
      deploy_rate_limiting.main, deploy_dns_sec_settings.main_over,
      deploy_sec_settings.main_over, deploy_speed.main_over.
    rewrite Hmiss. simpl. repeat split; by right.
  - repeat split.
    + rewrite (cache_main_cases R environ api_token zone_id rules Hc).
      destruct (deploy_cache_rules.find_or_create_cache_ruleset _ _ R start) as [[v|e] p];
        [destruct (py_truthy v)|]; try (by right). apply expected_exit_zero_or_one.
    + rewrite (firewall_main_cases R environ api_token zone_id rules Hc).
      destruct (deploy_securityrules.find_firewall_ruleset_id _ _ R start) as [[v|e] p];
        [destruct (py_truthy v)|]; try (by right). apply expected_exit_zero_or_one.
    + rewrite (rate_limit_main_run R environ api_token zone_id Hc). simpl.
      destruct (reported_success _); [by left|by right].
    + rewrite (observed_run _ _ _ _ (dns_main_batch R environ api_token zone_id settings Hc)).
      apply expected_exit_zero_or_one.
    + rewrite (observed_run _ _ _ _ (sec_main_batch R environ api_token zone_id settings Hc)).
      apply expected_exit_zero_or_one.
    + rewrite (observed_run _ _ _ _ (speed_main_batch R environ api_token zone_id settings Hc)).
      apply expected_exit_zero_or_one.
Qed.

(** X2.  Exit status 0 is earned.  Whenever the cache script, or the
    firewall script, ends with status 0 (for any environment, remote
    system and rule list), the credentials were set, the Locator returned
    a truthy identifier, every rule was appended to that ruleset in input
    order right after the Locator's exchanges, every append was accepted,
    and the tally printed is [N] of [N]. *)
Theorem container_exit_zero_is_earned (R : remote) (environ : gmap string string)
    (rules : list dict) (p : process) :
  (run_script (deploy_cache_rules.main_over rules environ) R = (0, p) →
   ∃ api_token zone_id ruleset_id before,
     credentials environ api_token zone_id ∧
     deploy_cache_rules.find_or_create_cache_ruleset zone_id (make_headers api_token) R start
       = (Returned ruleset_id, {| wire := before; stdout := [] |}) ∧
     py_truthy ruleset_id = true ∧
     p = {| wire := before ++
                    converse R before
                      (map (deploy_cache_rules.add_rule_request zone_id ruleset_id
                              (make_headers api_token)) rules);
            stdout := [mkTally (length rules) (length rules)] |} ∧
     Forall (λ x, accepted (got x) = true)
       (converse R before
          (map (deploy_cache_rules.add_rule_request zone_id ruleset_id
                  (make_headers api_token)) rules))) ∧
  (run_script (deploy_securityrules.main_over rules environ) R = (0, p) →
   ∃ api_token zone_id ruleset_id before,
     credentials environ api_token zone_id ∧
     deploy_securityrules.find_firewall_ruleset_id zone_id (make_headers api_token) R start
       = (Returned ruleset_id, {| wire := before; stdout := [] |}) ∧
     py_truthy ruleset_id = true ∧
     p = {| wire := before ++
                    converse R before
                      (map (deploy_securityrules.add_rule_request zone_id ruleset_id
                              (make_headers api_token)) rules);
            stdout := [mkTally (length rules) (length rules)] |} ∧
     Forall (λ x, accepted (got x) = true)
       (converse R before
          (map (deploy_securityrules.add_rule_request zone_id ruleset_id
                  (make_headers api_token)) rules))).
Proof.
  split; intros Hrun.
  - destruct (guard_decides environ) as [Hmiss|(api_token & zone_id & Hc)].
    { apply guard_stops in Hmiss. revert Hrun.
      unfold run_script, deploy_cache_rules.main_over. by rewrite Hmiss. }
    rewrite (cache_main_cases R environ api_token zone_id rules Hc) in Hrun.
    pose proof (quiet_cache_locator zone_id (make_headers api_token) R start) as Hq.
    destruct (deploy_cache_rules.find_or_create_cache_ruleset _ _ R start)
      as [[v|e] [before out]] eqn:Hloc; [|done].
    simpl in Hq. subst out.
    destruct (py_truthy v) eqn:Hv; [|done].
    cbv zeta in Hrun.
    pose proof (f_equal fst Hrun) as Hexit. pose proof (f_equal snd Hrun) as Hfinal.
    cbn [fst snd] in Hexit, Hfinal.
    destruct (expected_exit_zero _ _ _ Hexit) as [Hp Hall].
    rewrite length_map in Hp.
    exists api_token, zone_id, v, before.
    split; [exact Hc|]. split; [done|]. split; [done|]. split; [|exact Hall].
    rewrite <- Hfinal. exact Hp.
  - destruct (guard_decides environ) as [Hmiss|(api_token & zone_id & Hc)].
    { apply guard_stops in Hmiss. revert Hrun.
      unfold run_script, deploy_securityrules.main_over. by rewrite Hmiss. }
    rewrite (firewall_main_cases R environ api_token zone_id rules Hc) in Hrun.
    pose proof (quiet_firewall_locator zone_id (make_headers api_token) R start) as Hq.
    destruct (deploy_securityrules.find_firewall_ruleset_id _ _ R start)
      as [[v|e] [before out]] eqn:Hloc; [|done].
    simpl in Hq. subst out.
    destruct (py_truthy v) eqn:Hv; [|done].
    cbv zeta in Hrun.
    pose proof (f_equal fst Hrun) as Hexit. pose proof (f_equal snd Hrun) as Hfinal.
    cbn [fst snd] in Hexit, Hfinal.
    destruct (expected_exit_zero _ _ _ Hexit) as [Hp Hall].
    rewrite length_map in Hp.
    exists api_token, zone_id, v, before.
    split; [exact Hc|]. split; [done|]. split; [done|]. split; [|exact Hall].
    rewrite <- Hfinal. exact Hp.
Qed.

Lemma container_exit_zero_is_earned_witness :
  run_script (deploy_cache_rules.main_over deploy_cache_rules.rules_to_add sample_environ)
             fresh_zone
  = (0, (run_script (deploy_cache_rules.main sample_environ) fresh_zone).2) ∧
  ∃ api_token zone_id ruleset_id before,
    credentials sample_environ api_token zone_id ∧
    deploy_cache_rules.find_or_create_cache_ruleset zone_id (make_headers api_token)
      fresh_zone start
    = (Returned ruleset_id, {| wire := before; stdout := [] |}) ∧
    py_truthy ruleset_id = true.
Proof.
  split; [reflexivity|].
  destruct (proj1 (container_exit_zero_is_earned fresh_zone sample_environ
                     deploy_cache_rules.rules_to_add
                     (run_script (deploy_cache_rules.main sample_environ) fresh_zone).2)
              eq_refl)
    as (api_token & zone_id & ruleset_id & before & Hc & Hloc & Hv & _).
  by exists api_token, zone_id, ruleset_id, before.
Defined.

(** X3.  Exit status 0 is earned, settings scripts.  Whenever the
    DNS/TLS script, the security script or the speed script ends with
    status 0, the credentials were set, the wire holds exactly the write
    requests of the script in source order (DNSSEC first; page shield, then
    bot fight mode first), every one was accepted, and the tally is [N] of
    [N].  Whenever the rate-limit script ends with status 0, its one PUT
    was sent and accepted. *)
Theorem settings_exit_zero_is_earned (R : remote) (environ : gmap string string)
    (settings : list setting) (p : process) :
  (run_script (deploy_dns_sec_settings.main_over settings environ) R = (0, p) →
   ∃ api_token zone_id,
     credentials environ api_token zone_id ∧
     let mutations :=
       deploy_dns_sec_settings.dnssec_request zone_id (make_headers api_token)
       :: map (deploy_dns_sec_settings.update_zone_request zone_id (make_headers api_token))
              settings in
     p = {| wire := converse R [] mutations;
            stdout := [mkTally (length mutations) (length mutations)] |} ∧
     Forall (λ x, accepted (got x) = true) (converse R [] mutations)) ∧
  (run_script (deploy_sec_settings.main_over settings environ) R = (0, p) →
   ∃ api_token zone_id,
     credentials environ api_token zone_id ∧
     let mutations :=
       deploy_sec_settings.page_shield_request zone_id (make_headers api_token)
       :: deploy_sec_settings.bot_fight_request zone_id (make_headers api_token)
       :: map (deploy_sec_settings.update_zone_request zone_id (make_headers api_token))
              settings in
     p = {| wire := converse R [] mutations;
            stdout := [mkTally (length mutations) (length mutations)] |} ∧
     Forall (λ x, accepted (got x) = true) (converse R [] mutations)) ∧
  (run_script (deploy_speed.main_over settings environ) R = (0, p) →
   ∃ api_token zone_id,
     credentials environ api_token zone_id ∧
     let mutations :=
       map (deploy_speed.update_zone_request zone_id (make_headers api_token)) settings in
     p = {| wire := converse R [] mutations;
            stdout := [mkTally (length mutations) (length mutations)] |} ∧
     Forall (λ x, accepted (got x) = true) (converse R [] mutations)) ∧
  (run_script (deploy_rate_limiting.main environ) R = (0, p) →
   ∃ api_token zone_id,
     credentials environ api_token zone_id ∧
     let q := deploy_rate_limiting.deploy_request zone_id (make_headers api_token) in
     p = {| wire := [Exchange q (R [] q)]; stdout := [] |} ∧
     accepted (R [] q) = true).
Proof.
  repeat split; intros Hrun;
    (destruct (guard_decides environ) as [Hmiss|(api_token & zone_id & Hc)];
     [apply guard_stops in Hmiss; revert Hrun;
      unfold run_script, deploy_dns_sec_settings.main_over, deploy_sec_settings.main_over,
        deploy_speed.main_over, deploy_rate_limiting.main;
      by rewrite Hmiss|]);
    exists api_token, zone_id; (split; [exact Hc|]).
  - rewrite (observed_run _ _ _ _ (dns_main_batch R environ api_token zone_id settings Hc))
      in Hrun.
    pose proof (f_equal fst Hrun) as Hexit. pose proof (f_equal snd Hrun) as Hfinal.
    cbn [fst snd] in Hexit, Hfinal. destruct (expected_exit_zero _ _ _ Hexit) as [Hp Hall].
    split; [rewrite <- Hfinal; exact Hp|exact Hall].
  - rewrite (observed_run _ _ _ _ (sec_main_batch R environ api_token zone_id settings Hc))
      in Hrun.
    pose proof (f_equal fst Hrun) as Hexit. pose proof (f_equal snd Hrun) as Hfinal.
    cbn [fst snd] in Hexit, Hfinal. destruct (expected_exit_zero _ _ _ Hexit) as [Hp Hall].
    split; [rewrite <- Hfinal; exact Hp|exact Hall].
  - rewrite (observed_run _ _ _ _ (speed_main_batch R environ api_token zone_id settings Hc))
      in Hrun.
    pose proof (f_equal fst Hrun) as Hexit. pose proof (f_equal snd Hrun) as Hfinal.
    cbn [fst snd] in Hexit, Hfinal. destruct (expected_exit_zero _ _ _ Hexit) as [Hp Hall].
    split; [rewrite <- Hfinal; exact Hp|exact Hall].
  - rewrite (rate_limit_main_run R environ api_token zone_id Hc) in Hrun.
    destruct (reported_success _) eqn:Hacc; [|done].
    injection Hrun as <-. split; [done|]. by apply reported_success_accepted.
Qed.

Lemma settings_exit_zero_is_earned_witness :
  run_script (deploy_speed.main_over deploy_speed.settings_to_apply sample_environ) fresh_zone
  = (0, (run_script (deploy_speed.main sample_environ) fresh_zone).2) ∧
  ∃ api_token zone_id, credentials sample_environ api_token zone_id.
Proof.
  split; [reflexivity|].
  destruct (proj1 (proj2 (proj2 (settings_exit_zero_is_earned fresh_zone sample_environ
                     deploy_speed.settings_to_apply
                     (run_script (deploy_speed.main sample_environ) fresh_zone).2)))
              eq_refl)
    as (api_token & zone_id & Hc & _).
  by exists api_token, zone_id.
Defined.

(** *** What goes over the wire *)

Lemma emits_ret {A : Type} (P : request → Prop) (a : A) : emits P (mret a).
Proof. intros R p. exists []. by rewrite app_nil_r. Qed.

Lemma emits_raise {A : Type} (P : request → Prop) (e : exn) : emits P (@raise A e).
Proof. intros R p. exists []. by rewrite app_nil_r. Qed.

Lemma emits_silent {A : Type} (P : request → Prop) (m : Py A) : silent m → emits P m.
Proof. intros Hm R p. exists []. by rewrite Hm, app_nil_r. Qed.

Lemma emits_bind {A B : Type} (P : request → Prop) (m : Py A) (f : A → Py B) :
  emits P m → (∀ a, emits P (f a)) → emits P (m ≫= f).
Proof.
  intros Hm Hf R p. rewrite bind_run. destruct (Hm R p) as (xs & Hxs & HP).
  destruct (m R p) as [[a|e] p']; simpl in *; [|by exists xs].
  destruct (Hf a R p') as (ys & Hys & HQ).
  exists (xs ++ ys). rewrite Hys, Hxs, app_assoc. split; [done|by apply Forall_app].
Qed.

Lemma emits_try_except {A : Type} (P : request → Prop) (body : Py A) (failure : A) :
  emits P body → emits P (try_except body (except_requests failure)).
Proof.
  intros Hb R p. unfold try_except. destruct (Hb R p) as (xs & Hxs & HP).
  destruct (body R p) as [[a|e] p']; simpl in *; [by exists xs|].
  destruct e; simpl; by exists xs.
Qed.

Lemma emits_requests_call (P : request → Prop) (q : request) :
  P q → emits P (requests_call q).
Proof.
  intros Hq R p. exists [Exchange q (R (wire p) q)]. unfold requests_call.
  split; [by destruct (arrived (R (wire p) q))|]. by constructor.
Qed.

Lemma emits_print_tally (P : request → Prop) (success_count total : nat) :
  emits P (print_tally success_count total).
Proof. intros R p. exists []. by rewrite app_nil_r. Qed.

Lemma emits_count_successes {A : Type} (P : request → Prop) (f : A → Py bool) (xs : list A) :
  (∀ x, x ∈ xs → emits P (f x)) → ∀ n, emits P (count_successes f xs n).
Proof.
  induction xs as [|x xs IH]; intros Hf n; simpl; [apply emits_ret|].
  apply emits_bind; [apply Hf; by left|].
  intros ok. apply IH. intros y Hy. apply Hf. by right.
Qed.

(** A one-shot write emits its request and nothing else. *)
Lemma emits_write_once (P : request → Prop) (q : request) :
  P q →
  emits P (try_except (response ← requests_call q;
                       raise_for_status response;;
                       response_json response;;
                       mret true)
                      (except_requests false)).
Proof.
  intros Hq. apply emits_try_except, emits_bind; [by apply emits_requests_call|].
  intros r. apply emits_silent. repeat silent_step.
Qed.

Lemma silent_cache_scan (rulesets : list json) :
  silent (deploy_cache_rules.scan_rulesets rulesets).
Proof. induction rulesets as [|ruleset rest IH]; simpl; repeat silent_step. Qed.

Lemma run_script_final (main : Py unit) (R : remote) :
  (run_script main R).2 = (main R start).2.
Proof. unfold run_script. by destruct (main R start). Qed.

Lemma emits_run (P : request → Prop) (main : Py unit) (R : remote) :
  emits P main → Forall (λ x, P (sent x)) (wire (run_script main R).2).
Proof.
  intros Hm. rewrite run_script_final. destruct (Hm R start) as (xs & -> & HP). exact HP.
Qed.

(** The end of a batch script sends nothing. *)
Lemma emits_tally_and_exit (P : request → Prop) (success_count total : nat) :
  emits P (print_tally success_count total;;
           if (success_count <? total)%nat then sys_exit 1 else mret tt).
Proof.
  apply emits_bind; [apply emits_print_tally|]. intros _.
  destruct (success_count <? total)%nat; [apply emits_raise|apply emits_ret].
Qed.

Lemma cache_main_emits environ api_token zone_id rules :
  credentials environ api_token zone_id →
  emits (cache_speaks zone_id (make_headers api_token) rules)
        (deploy_cache_rules.main_over rules environ).
Proof.
  intros Hc. unfold deploy_cache_rules.main_over.
  rewrite (guard_passes _ _ _ Hc). destruct Hc as (-> & _ & -> & _). simpl default.
  apply emits_bind.
  - pose proof silent_cache_scan.
    unfold deploy_cache_rules.find_or_create_cache_ruleset, requests_get, requests_post.
    apply emits_try_except, emits_bind; [apply emits_requests_call; by left|].
    intros r. apply emits_bind; [apply emits_silent; repeat silent_step|]. intros _.
    apply emits_bind; [apply emits_silent; repeat silent_step|]. intros data.
    apply emits_bind; [apply emits_silent; repeat silent_step|]. intros rulesets.
    apply emits_bind; [apply emits_silent; repeat silent_step|]. intros items.
    apply emits_bind; [apply emits_silent; repeat silent_step|]. intros [v|].
    + apply emits_ret.
    + apply emits_bind; [apply emits_requests_call; right; by left|].
      intros r2. apply emits_silent. repeat silent_step.
  - intros ruleset_id. destruct (py_truthy ruleset_id) eqn:Hv; [|apply emits_raise].
    apply emits_bind; [|intros n; apply emits_tally_and_exit].
    apply emits_count_successes. intros rule Hin.
    apply emits_write_once. right. right. by exists ruleset_id, rule.
Qed.

Lemma firewall_main_emits environ api_token zone_id rules :
  credentials environ api_token zone_id →
  emits (firewall_speaks zone_id (make_headers api_token) rules)
        (deploy_securityrules.main_over rules environ).
Proof.
  intros Hc. unfold deploy_securityrules.main_over.
  rewrite (guard_passes _ _ _ Hc). destruct Hc as (-> & _ & -> & _). simpl default.
  apply emits_bind.
  - pose proof silent_firewall_scan. pose proof silent_firewall_debug.
    unfold deploy_securityrules.find_firewall_ruleset_id, deploy_securityrules.debug_block,
      requests_get.
    apply emits_try_except, emits_bind; [apply emits_requests_call; by left|].
    intros r. apply emits_silent. repeat silent_step.
  - intros ruleset_id. destruct (py_truthy ruleset_id) eqn:Hv; [|apply emits_raise].
    apply emits_bind; [|intros n; apply emits_tally_and_exit].
    apply emits_count_successes. intros rule Hin.
    apply emits_write_once. right. by exists ruleset_id, rule.
Qed.

Lemma rate_limit_main_emits environ api_token zone_id :
  credentials environ api_token zone_id →
  emits (λ q, q = deploy_rate_limiting.deploy_request zone_id (make_headers api_token))
        (deploy_rate_limiting.main environ).
Proof.
  intros Hc. unfold deploy_rate_limiting.main.
  rewrite (guard_passes _ _ _ Hc). destruct Hc as (-> & _ & -> & _). simpl default.
  apply emits_bind; [by apply emits_write_once|].
  intros ok. destruct (negb ok); [apply emits_raise|apply emits_ret].
Qed.

Lemma dns_main_emits environ api_token zone_id settings :
  credentials environ api_token zone_id →
  emits (dns_speaks zone_id (make_headers api_token) settings)
        (deploy_dns_sec_settings.main_over settings environ).
Proof.
  intros Hc. unfold deploy_dns_sec_settings.main_over.
  rewrite (guard_passes _ _ _ Hc). destruct Hc as (-> & _ & -> & _). simpl default.
  apply emits_bind; [apply emits_write_once; by left|]. intros ok.
  apply emits_bind; [|intros n; apply emits_tally_and_exit].
  apply emits_count_successes. intros s Hin.
  apply emits_write_once. right. by exists s.
Qed.

Lemma sec_main_emits environ api_token zone_id settings :
  credentials environ api_token zone_id →
  emits (sec_speaks zone_id (make_headers api_token) settings)
        (deploy_sec_settings.main_over settings environ).
Proof.
  intros Hc. unfold deploy_sec_settings.main_over.
  rewrite (guard_passes _ _ _ Hc). destruct Hc as (-> & _ & -> & _). simpl default.
  apply emits_bind; [apply emits_write_once; by left|]. intros ok1.
  apply emits_bind; [apply emits_write_once; right; by left|]. intros ok2.
  apply emits_bind; [|intros n; apply emits_tally_and_exit].
  apply emits_count_successes. intros s Hin.
  apply emits_write_once. right. right. by exists s.
Qed.

Lemma speed_main_emits environ api_token zone_id settings :
  credentials environ api_token zone_id →
  emits (speed_speaks zone_id (make_headers api_token) settings)
        (deploy_speed.main_over settings environ).
Proof.
  intros Hc. unfold deploy_speed.main_over.
  rewrite (guard_passes _ _ _ Hc). destruct Hc as (-> & _ & -> & _). simpl default.
  apply emits_bind; [|intros n; apply emits_tally_and_exit].
  apply emits_count_successes. intros s Hin.
  apply emits_write_once. by exists s.
Qed.

(** X4.  The request vocabulary of each script.  With the credentials
    set, for every remote system (also when the run ends in an exception),
    every request on the wire is one the script is written to send: for
    the cache script the enumeration, the creation or the POST of one of
    its rules, unchanged, on a ruleset with a truthy identifier; for the
    firewall script the enumeration or such a POST (never a creation); for
    the rate-limit script its PUT; for the settings scripts the PATCH of
    one of their settings or one of their special-endpoint updates (never
    a read, never a POST).  All of them carry the script's headers and stay
    in the configured zone. *)
Theorem request_vocabulary (R : remote) (environ : gmap string string)
    (api_token zone_id : string) (rules : list dict) (settings : list setting) :
  credentials environ api_token zone_id →
  let headers := make_headers api_token in
  Forall (λ x, cache_speaks zone_id headers rules (sent x))
         (wire (run_script (deploy_cache_rules.main_over rules environ) R).2) ∧
  Forall (λ x, firewall_speaks zone_id headers rules (sent x))
         (wire (run_script (deploy_securityrules.main_over rules environ) R).2) ∧
  Forall (λ x, sent x = deploy_rate_limiting.deploy_request zone_id headers)
         (wire (run_script (deploy_rate_limiting.main environ) R).2) ∧
  Forall (λ x, dns_speaks zone_id headers settings (sent x))
         (wire (run_script (deploy_dns_sec_settings.main_over settings environ) R).2) ∧
  Forall (λ x, sec_speaks zone_id headers settings (sent x))
         (wire (run_script (deploy_sec_settings.main_over settings environ) R).2) ∧
  Forall (λ x, speed_speaks zone_id headers settings (sent x))
         (wire (run_script (deploy_speed.main_over settings environ) R).2).
Proof.
  intros Hc headers. repeat split.
  - by apply emits_run, cache_main_emits.
  - by apply emits_run, firewall_main_emits.
  - by apply (emits_run _ _ _ (rate_limit_main_emits environ api_token zone_id Hc)).
  - by apply emits_run, dns_main_emits.
  - by apply emits_run, sec_main_emits.
  - by apply emits_run, speed_main_emits.
Qed.

Lemma request_vocabulary_witness :
  credentials sample_environ "token" "zone" ∧
  Forall (λ x, firewall_speaks "zone" sample_headers deploy_securityrules.rules_to_add (sent x))
         (wire (run_script (deploy_securityrules.main sample_environ) second_write_fails).2).
Proof.
  split; [exact sample_credentials|].
  exact (proj1 (proj2 (request_vocabulary second_write_fails sample_environ "token" "zone"
                         deploy_securityrules.rules_to_add [] sample_credentials))).
Defined.







(* ===================================================================== *)
(** ** The Locators on every answer *)
(* ===================================================================== *)

(** A [try] block that starts with a request. *)
Lemma request_then_try {A : Type} (q : request) (k : received → Py A) (failure : A)
    (R : remote) (p : process) :
  try_except (requests_call q ≫= k) (except_requests failure) R p
  = match arrived (R (wire p) q) with
    | Some response =>
        try_except (k response) (except_requests failure) R
                   (record p [Exchange q (R (wire p) q)])
    | None => (Returned failure, record p [Exchange q (R (wire p) q)])
    end.
Proof.
  unfold try_except. rewrite bind_run. unfold requests_call.
  destruct (arrived (R (wire p) q)); reflexivity.
Qed.

Lemma arrived_accepted (a : reply) (response : received) :
  arrived a = Some response → error_status (rcv_status response) = false →
  accepted a = true.
Proof.
  unfold accepted. destruct a as [r|status|]; simpl; intros [= <-]; simpl; [|by intros ->].
  rewrite error_status_response. by intros ->.
Qed.

(** A [try] block that starts with a silent step either ends where it
    started, or goes on with the value the step returned. *)
Lemma silent_then_try {A B : Type} (m : Py A) (f : A → Py B) (failure : B)
    (R : remote) (p : process) :
  silent m →
  (try_except (m ≫= f) (except_requests failure) R p).2 = p ∨
  ∃ a, m R p = (Returned a, p) ∧
       try_except (m ≫= f) (except_requests failure) R p
       = try_except (f a) (except_requests failure) R p.
Proof.
  intros Hm. specialize (Hm R p). unfold try_except. rewrite bind_run.
  destruct (m R p) as [[a|e] p']; simpl in Hm; subst p'.
  - right. by exists a.
  - left. by destruct e.
Qed.

Ltac silent_try Hret :=
  match goal with
  | |- context [try_except (?m ≫= ?f) (except_requests ?d) ?R ?p] =>
      let Hs := fresh "Hs" in
      let Hstop := fresh "Hstop" in
      let Hgo := fresh "Hgo" in
      assert (silent m) as Hs
        by first [apply silent_cache_scan | apply silent_firewall_scan
                 | apply silent_firewall_debug | auto with silent];
      destruct (silent_then_try m f d R p Hs) as [Hstop|(? & Hret & Hgo)];
      [rewrite Hstop | rewrite Hgo; clear Hgo Hs; cbv beta]
  end.

(** X6.  The cache Locator sends at most two requests, whatever the
    remote system answers and also when it ends in an exception: first the
    enumeration; then, at most once and only when the enumeration was not
    rejected, the creation.  It never sends a mutation, and never creates
    without having enumerated. *)
Theorem cache_locator_at_most_one_creation (R : remote) (zone_id : string)
    (headers : headers_t) (p : process) :
  let list_x :=
    Exchange (list_request zone_id headers) (R (wire p) (list_request zone_id headers)) in
  let create_x :=
    Exchange (create_request zone_id headers)
             (R (wire p ++ [list_x]) (create_request zone_id headers)) in
  (deploy_cache_rules.find_or_create_cache_ruleset zone_id headers R p).2
    = record p [list_x] ∨
  ((deploy_cache_rules.find_or_create_cache_ruleset zone_id headers R p).2
     = record p [list_x; create_x] ∧
   accepted (got list_x) = true).
Proof.
  intros list_x create_x. subst list_x create_x.
  unfold deploy_cache_rules.find_or_create_cache_ruleset, requests_get, requests_post.
  fold (list_request zone_id headers). fold (create_request zone_id headers).
  rewrite request_then_try.
  destruct (arrived (R (wire p) (list_request zone_id headers))) as [response|] eqn:Ha;
    [|by left].
  set (p1 := record p [Exchange (list_request zone_id headers)
                                (R (wire p) (list_request zone_id headers))]).
  cbv beta.
  silent_try Hok; [by left|].
  assert (error_status (rcv_status response) = false) as Hr.
  { revert Hok. unfold raise_for_status. by destruct (error_status _). }
  silent_try Hjson; [by left|].
  silent_try Hget; [by left|].
  silent_try Hiter; [by left|].
  silent_try Hscan; [by left|].
  match goal with |- context [match ?found with Some _ => _ | None => _ end] =>
    destruct found as [v|] end; [by left|].
  right. split.
  - rewrite (cache_creation_wire zone_id headers R p1). unfold p1.
    by rewrite record_record.
  - by apply (arrived_accepted _ response).
Qed.

(** X7.  A rejected creation ends the run.  When the enumeration
    succeeds without a match and the creation request is rejected (no
    response, or an error status), the cache Locator returns [None] and
    [main] exits with status 1; the wire holds the enumeration and the one
    creation request, which is not retried, and no rule is appended. *)
Theorem rejected_creation_aborts (R : remote) (environ : gmap string string)
    (api_token zone_id : string) (rules : list dict) (cs : list dict) :
  credentials environ api_token zone_id →
  let headers := make_headers api_token in
  let list_x := Exchange (list_request zone_id headers) (R [] (list_request zone_id headers)) in
  let create_x :=
    Exchange (create_request zone_id headers) (R [list_x] (create_request zone_id headers)) in
  let after := {| wire := [list_x; create_x]; stdout := [] |} in
  enumerated (got list_x) cs →
  List.find (is_container deploy_cache_rules.phase) cs = None →
  rejected (got create_x) = true →
  deploy_cache_rules.find_or_create_cache_ruleset zone_id headers R start
    = (Returned JNull, after) ∧
  run_script (deploy_cache_rules.main_over rules environ) R = (1, after).
Proof.
  intros Hc headers list_x create_x after He Hnone Hrej.
  assert (deploy_cache_rules.find_or_create_cache_ruleset zone_id headers R start
          = (Returned JNull, after)) as Hloc.
  { rewrite (cache_locator_missing zone_id headers R start cs He Hnone).
    apply injective_projections.
    - exact (cache_creation_rejected zone_id headers R (record start [list_x]) Hrej).
    - exact (cache_creation_wire zone_id headers R (record start [list_x])). }
  split; [exact Hloc|].
  by apply (cache_main_aborts R environ api_token zone_id rules JNull after).
Qed.

Lemma rejected_creation_aborts_witness :
  credentials sample_environ "token" "zone" ∧
  rejected (creation_refused
              [Exchange (list_request "zone" sample_headers)
                        (creation_refused [] (list_request "zone" sample_headers))]
              (create_request "zone" sample_headers)) = true ∧
  run_script (deploy_cache_rules.main sample_environ) creation_refused
  = (1, {| wire := [Exchange (list_request "zone" sample_headers)
                             (Answered (Response 200 (JObj [("result", JArr [])])));
                    Exchange (create_request "zone" sample_headers)
                             (Answered (Response 403 (JObj [("success", JBool false)])))];
           stdout := [] |}).
Proof.
  split; [exact sample_credentials|]. split; [reflexivity|].
  exact (proj2 (rejected_creation_aborts creation_refused sample_environ "token" "zone"
                  deploy_cache_rules.rules_to_add [] sample_credentials
                  (fresh_zone_enumerated creation_refused eq_refl) eq_refl eq_refl)).
Defined.

(** X8.  A listed container without a usable identifier ends the run.
    When the first matching container has no [id], or one that is [None]
    or empty, the Locator returns that value, [main] takes it for a
    failure and exits with status 1 after the one enumeration request: the
    cache script does not fall back to creating a ruleset, and neither
    script appends a rule. *)
Theorem unusable_identifier_aborts (R : remote) (environ : gmap string string)
    (api_token zone_id : string) (rules : list dict) (cs : list dict) (c : dict) :
  credentials environ api_token zone_id →
  let headers := make_headers api_token in
  let list_x := Exchange (list_request zone_id headers) (R [] (list_request zone_id headers)) in
  let after := {| wire := [list_x]; stdout := [] |} in
  enumerated (got list_x) cs →
  py_truthy (container_id c) = false →
  (List.find (is_container deploy_cache_rules.phase) cs = Some c →
   run_script (deploy_cache_rules.main_over rules environ) R = (1, after)) ∧
  (List.find (is_container deploy_securityrules.phase) cs = Some c →
   run_script (deploy_securityrules.main_over rules environ) R = (1, after)).
Proof.
  intros Hc headers list_x after He Hid. split; intros Hfind.
  - apply (cache_main_aborts R environ api_token zone_id rules (container_id c) after);
      [done| |done].
    exact (cache_locator_existing zone_id headers R start cs c He Hfind).
  - apply (firewall_main_aborts R environ api_token zone_id rules (container_id c) after);
      [done| |done].
    pose proof (firewall_locator_listed zone_id headers R start cs He) as Hloc.
    rewrite Hfind in Hloc. exact Hloc.
Qed.

Lemma zone_without_id_enumerated :
  enumerated (zone_without_id [] (list_request "zone" sample_headers)) listing_without_id.
Proof. eexists. repeat split. Qed.

Lemma unusable_identifier_aborts_witness :
  credentials sample_environ "token" "zone" ∧
  enumerated (zone_without_id [] (list_request "zone" sample_headers)) listing_without_id ∧
  run_script (deploy_cache_rules.main sample_environ) zone_without_id
  = (1, {| wire := [Exchange (list_request "zone" sample_headers)
                             (zone_without_id [] (list_request "zone" sample_headers))];
           stdout := [] |}) ∧
  run_script (deploy_securityrules.main sample_environ) zone_without_id
  = (1, {| wire := [Exchange (list_request "zone" sample_headers)
                             (zone_without_id [] (list_request "zone" sample_headers))];
           stdout := [] |}).
Proof.
  split; [exact sample_credentials|]. split; [exact zone_without_id_enumerated|]. split.
  - exact (proj1 (unusable_identifier_aborts zone_without_id sample_environ "token" "zone"
                    deploy_cache_rules.rules_to_add listing_without_id
                    [("kind", JStr "zone"); ("phase", JStr "http_request_cache_settings")]
                    sample_credentials zone_without_id_enumerated eq_refl) eq_refl).
  - exact (proj2 (unusable_identifier_aborts zone_without_id sample_environ "token" "zone"
                    deploy_securityrules.rules_to_add listing_without_id
                    [("id", JStr ""); ("kind", JStr "zone");
                     ("phase", JStr "http_request_firewall_custom")]
                    sample_credentials zone_without_id_enumerated eq_refl) eq_refl).
Defined.

Lemma cache_main_raises R environ api_token zone_id rules e p :
  credentials environ api_token zone_id →
  deploy_cache_rules.find_or_create_cache_ruleset zone_id (make_headers api_token) R start
    = (Raised e, p) →
  run_script (deploy_cache_rules.main_over rules environ) R = (1, p).
Proof. intros Hc Hloc. by rewrite (cache_main_cases R environ api_token zone_id rules Hc), Hloc. Qed.

Lemma firewall_main_raises R environ api_token zone_id rules e p :
  credentials environ api_token zone_id →
  deploy_securityrules.find_firewall_ruleset_id zone_id (make_headers api_token) R start
    = (Raised e, p) →
  run_script (deploy_securityrules.main_over rules environ) R = (1, p).
Proof.
  intros Hc Hloc. by rewrite (firewall_main_cases R environ api_token zone_id rules Hc), Hloc.
Qed.

(** X9.  An enumeration response the Locator cannot read ends the run
    with an uncaught exception.  When the response passes
    [raise_for_status] but its body is not an object, [.get] raises
    [AttributeError]; when the body is an object whose [result] is [null],
    a boolean or a number, the loop over it raises [TypeError].  Neither
    [except] clause catches these: both Locators raise, the process ends
    with status 1, and the enumeration is the only request sent (the cache
    script creates nothing). *)
Theorem unreadable_listing_ends_run (R : remote) (environ : gmap string string)
    (api_token zone_id : string) (rules : list dict) (r : response) :
  credentials environ api_token zone_id →
  let headers := make_headers api_token in
  let after :=
    {| wire := [Exchange (list_request zone_id headers) (Answered r)]; stdout := [] |} in
  R [] (list_request zone_id headers) = Answered r →
  is_http_error r = false →
  ((∀ d, body r ≠ JObj d) →
   deploy_cache_rules.find_or_create_cache_ruleset zone_id headers R start
     = (Raised AttributeError, after) ∧
   run_script (deploy_cache_rules.main_over rules environ) R = (1, after) ∧
   deploy_securityrules.find_firewall_ruleset_id zone_id headers R start
     = (Raised AttributeError, after) ∧
   run_script (deploy_securityrules.main_over rules environ) R = (1, after)) ∧
  (∀ d v,
     body r = JObj d → dict_get d "result" = Some v →
     (v = JNull ∨ (∃ b, v = JBool b) ∨ (∃ n, v = JNum n)) →
     deploy_cache_rules.find_or_create_cache_ruleset zone_id headers R start
       = (Raised TypeError, after) ∧
     run_script (deploy_cache_rules.main_over rules environ) R = (1, after) ∧
     deploy_securityrules.find_firewall_ruleset_id zone_id headers R start
       = (Raised TypeError, after) ∧
     run_script (deploy_securityrules.main_over rules environ) R = (1, after)).
Proof.
  intros Hc headers after Ha Hr. split.
  - intros Hbody.
    assert (deploy_cache_rules.find_or_create_cache_ruleset zone_id headers R start
            = (Raised AttributeError, after)) as Hcache.
    { unfold deploy_cache_rules.find_or_create_cache_ruleset, requests_get.
      fold (list_request zone_id headers). unfold try_except.
      rewrite (read_answer _ _ R start r Ha Hr). rewrite bind_run.
      destruct (body r) as [| | | | |d]; try reflexivity. by destruct (Hbody d). }
    assert (deploy_securityrules.find_firewall_ruleset_id zone_id headers R start
            = (Raised AttributeError, after)) as Hfw.
    { unfold deploy_securityrules.find_firewall_ruleset_id, requests_get.
      fold (list_request zone_id headers). unfold try_except.
      rewrite (read_answer _ _ R start r Ha Hr). rewrite bind_run.
      destruct (body r) as [| | | | |d]; try reflexivity. by destruct (Hbody d). }
    split; [exact Hcache|].
    split; [exact (cache_main_raises R environ api_token zone_id rules _ _ Hc Hcache)|].
    split; [exact Hfw|].
    exact (firewall_main_raises R environ api_token zone_id rules _ _ Hc Hfw).
  - intros d v Hd Hv Hbad.
    assert (deploy_cache_rules.find_or_create_cache_ruleset zone_id headers R start
            = (Raised TypeError, after)) as Hcache.
    { unfold deploy_cache_rules.find_or_create_cache_ruleset, requests_get.
      fold (list_request zone_id headers). unfold try_except.
      rewrite (read_answer _ _ R start r Ha Hr). rewrite bind_run, Hd. unfold py_get at 1. rewrite Hv.
      cbn [mret Py_ret from_option id]. rewrite bind_run.
      by destruct Hbad as [->|[[b ->]|[n ->]]]. }
    assert (deploy_securityrules.find_firewall_ruleset_id zone_id headers R start
            = (Raised TypeError, after)) as Hfw.
    { unfold deploy_securityrules.find_firewall_ruleset_id, requests_get.
      fold (list_request zone_id headers). unfold try_except.
      rewrite (read_answer _ _ R start r Ha Hr). rewrite bind_run, Hd. unfold py_get at 1. rewrite Hv.
      cbn [mret Py_ret from_option id]. rewrite bind_run.
      unfold deploy_securityrules.debug_block.
      destruct Hbad as [->|[[b ->]|[n ->]]]; [reflexivity|by destruct b|].
      unfold py_truthy. by destruct (n =? 0). }
    split; [exact Hcache|].
    split; [exact (cache_main_raises R environ api_token zone_id rules _ _ Hc Hcache)|].
    split; [exact Hfw|].
    exact (firewall_main_raises R environ api_token zone_id rules _ _ Hc Hfw).
Qed.

Lemma unreadable_listing_ends_run_witness :
  credentials sample_environ "token" "zone" ∧
  is_http_error (Response 200 (JObj [("result", JNull)])) = false ∧
  run_script (deploy_securityrules.main sample_environ) null_result_zone
  = (1, {| wire := [Exchange (list_request "zone" sample_headers)
                             (Answered (Response 200 (JObj [("result", JNull)])))];
           stdout := [] |}).
Proof.
  split; [exact sample_credentials|]. split; [reflexivity|].
  refine (proj2 (proj2 (proj2 (proj2
    (unreadable_listing_ends_run null_result_zone sample_environ "token" "zone"
       deploy_securityrules.rules_to_add (Response 200 (JObj [("result", JNull)]))
       sample_credentials eq_refl eq_refl)
    [("result", JNull)] JNull eq_refl eq_refl _)))).
  by left.
Defined.

Lemma cache_scan_stops_at_match (cs : list dict) (c : dict) (tail : list json)
    (R : remote) (p : process) :
  List.find (is_container deploy_cache_rules.phase) cs = None →
  is_container deploy_cache_rules.phase c = true →
  deploy_cache_rules.scan_rulesets (map JObj cs ++ JObj c :: tail) R p
  = (Returned (Some (container_id c)), p).
Proof.
  intros Hnone Hc. induction cs as [|c0 cs IH].
  - cbn [map app deploy_cache_rules.scan_rulesets].
    rewrite <- scan_test in Hc.
    rewrite bind_run. unfold py_get at 1. cbn [mret Py_ret]. rewrite bind_run.
    destruct (py_eq_str (from_option id JNull (dict_get c "kind")) "zone"); [|done].
    rewrite bind_run. unfold py_get at 1. cbn [mret Py_ret]. by rewrite Hc.
  - cbn [List.find] in Hnone.
    destruct (is_container deploy_cache_rules.phase c0) eqn:Hc0; [done|].
    rewrite <- scan_test in Hc0.
    cbn [map app deploy_cache_rules.scan_rulesets].
    rewrite bind_run. unfold py_get at 1. cbn [mret Py_ret]. rewrite bind_run.
    destruct (py_eq_str (from_option id JNull (dict_get c0 "kind")) "zone").
    + rewrite bind_run. unfold py_get at 1. cbn [mret Py_ret]. rewrite Hc0. by apply IH.
    + by apply IH.
Qed.

Lemma firewall_debug_reads_all (rulesets : list json) (R : remote) (p : process) :
  (∃ v, v ∈ rulesets ∧ ∀ d, v ≠ JObj d) →
  deploy_securityrules.debug_print rulesets R p = (Raised AttributeError, p).
Proof.
  induction rulesets as [|v0 rest IH]; intros (v & Hin & Hv).
  - by apply elem_of_nil in Hin.
  - cbn [deploy_securityrules.debug_print]. rewrite bind_run.
    destruct v0 as [| | | | |d]; try reflexivity.
    apply elem_of_cons in Hin as [->|Hin]; [by destruct (Hv d)|].
    unfold py_get at 1. cbn [mret Py_ret]. rewrite !bind_run.
    apply IH. by exists v.
Qed.

(** X10.  Entries after the first match.  When the listing holds objects
    that do not match, then a matching container [c], then anything at
    all, the cache Locator returns the identifier of [c] without looking at
    what follows.  The firewall Locator prints every listed entry before
    it scans: if an entry after [c] is not an object, it raises
    [AttributeError] instead of returning. *)
Theorem entries_after_first_match (R : remote) (zone_id : string) (headers : headers_t)
    (p : process) (r : response) (d : dict) (cs : list dict) (c : dict) (tail : list json) :
  R (wire p) (list_request zone_id headers) = Answered r →
  is_http_error r = false →
  body r = JObj d →
  dict_get d "result" = Some (JArr (map JObj cs ++ JObj c :: tail)) →
  let after := record p [Exchange (list_request zone_id headers) (Answered r)] in
  (List.find (is_container deploy_cache_rules.phase) cs = None →
   is_container deploy_cache_rules.phase c = true →
   deploy_cache_rules.find_or_create_cache_ruleset zone_id headers R p
   = (Returned (container_id c), after)) ∧
  ((∃ v, v ∈ tail ∧ ∀ d', v ≠ JObj d') →
   deploy_securityrules.find_firewall_ruleset_id zone_id headers R p
   = (Raised AttributeError, after)).
Proof.
  intros Ha Hr Hd Hres after. split.
  - intros Hnone Hc.
    unfold deploy_cache_rules.find_or_create_cache_ruleset, requests_get.
    fold (list_request zone_id headers). unfold try_except.
    rewrite (read_answer _ _ R p r Ha Hr). rewrite bind_run, Hd. unfold py_get at 1. rewrite Hres.
    cbn [mret Py_ret from_option id]. rewrite bind_run. cbn [py_iter mret Py_ret].
    rewrite bind_run. by rewrite (cache_scan_stops_at_match cs c tail _ _ Hnone Hc).
  - intros (v & Hin & Hv).
    unfold deploy_securityrules.find_firewall_ruleset_id, requests_get.
    fold (list_request zone_id headers). unfold try_except.
    rewrite (read_answer _ _ R p r Ha Hr). rewrite bind_run, Hd. unfold py_get at 1. rewrite Hres.
    cbn [mret Py_ret from_option id]. rewrite bind_run.
    unfold deploy_securityrules.debug_block.
    assert (py_truthy (JArr (map JObj cs ++ JObj c :: tail)) = true) as ->.
    { unfold py_truthy. rewrite length_app. simpl.
      by destruct (length (map JObj cs) + S (length tail))%nat eqn:E; [lia|]. }
    cbn [negb]. rewrite bind_run. cbn [py_iter mret Py_ret].
    rewrite firewall_debug_reads_all; [reflexivity|].
    exists v. split; [|done]. apply elem_of_app. right. by right.
Qed.

Lemma entries_after_first_match_witness :
  junk_after_match [] (list_request "zone" sample_headers)
  = Answered (Response 200
                (JObj [("result", JArr [JObj (cache_container "c1"); JStr "junk"])])) ∧
  deploy_cache_rules.find_or_create_cache_ruleset "zone" sample_headers junk_after_match start
  = (Returned (JStr "c1"),
     record start
       [Exchange (list_request "zone" sample_headers)
          (Answered (Response 200
             (JObj [("result", JArr [JObj (cache_container "c1"); JStr "junk"])])))]) ∧
  deploy_securityrules.find_firewall_ruleset_id "zone" sample_headers junk_after_match start
  = (Raised AttributeError,
     record start
       [Exchange (list_request "zone" sample_headers)
          (Answered (Response 200
             (JObj [("result", JArr [JObj (cache_container "c1"); JStr "junk"])])))]).
Proof.
  pose proof (entries_after_first_match junk_after_match "zone" sample_headers start
                (Response 200
                   (JObj [("result", JArr [JObj (cache_container "c1"); JStr "junk"])]))
                [("result", JArr [JObj (cache_container "c1"); JStr "junk"])]
                [] (cache_container "c1") [JStr "junk"]
                eq_refl eq_refl eq_refl eq_refl) as [Hcache Hfw].
  split; [reflexivity|]. split.
  - exact (Hcache eq_refl eq_refl).
  - apply Hfw. exists (JStr "junk"). split; [by left|done].
Defined.

(* ===================================================================== *)
(** ** The write functions *)
(* ===================================================================== *)

Lemma reported_success_status (a : reply) :
  reported_success a = true ↔ ∃ r, a = Answered r ∧ ¬ (400 ≤ status_code r < 600).
Proof.
  unfold reported_success, is_http_error. destruct a as [r|status|]; simpl.
  - split.
    + intros H. exists r. split; [done|]. intros [H1 H2].
      apply Z.leb_le in H1. apply Z.ltb_lt in H2. by rewrite H1, H2 in H.
    + intros (r' & [= <-] & H).
      destruct (Z.leb_spec 400 (status_code r)), (Z.ltb_spec (status_code r) 600);
        simpl; try done. lia.
  - split; [done|]. by intros (r & [=] & _).
  - split; [done|]. by intros (r & [=] & _).
Qed.

Lemma one_shot_write_intro (f : Py bool) (q : request) :
  (∀ R p, f R p = (Returned (reported_success (R (wire p) q)),
                   record p [Exchange q (R (wire p) q)])) →
  one_shot_write f q.
Proof.
  intros Hf R p. exists (reported_success (R (wire p) q)).
  split; [apply Hf|apply reported_success_status].
Qed.

(** X11.  The contract of the nine write functions.  Each of them
    sends its one request (the rule or payload it was given, unchanged, on
    its own URL) exactly once and never raises: a transport failure, an
    HTTP error and a body that does not decode are all turned into
    [False].  It returns [True] exactly when a response arrived whose
    status is outside 400 to 599 and whose body is a JSON document: an
    accepted request answered with an empty or non-JSON body (a 204, an
    HTML page) is reported as a failure. *)
Theorem write_functions_are_one_shot (zone_id : string) (headers : headers_t)
    (ruleset_id : json) (rule : dict) (s : setting) :
  one_shot_write (deploy_cache_rules.add_rule_to_ruleset zone_id ruleset_id headers rule)
    (Request POST (ruleset_rules zone_id ruleset_id) headers (Some (JObj rule))) ∧
  one_shot_write (deploy_securityrules.add_rule_to_ruleset zone_id ruleset_id headers rule)
    (Request POST (ruleset_rules zone_id ruleset_id) headers (Some (JObj rule))) ∧
  one_shot_write (deploy_rate_limiting.deploy_rate_limit_ruleset zone_id headers)
    (Request PUT (phase_entrypoint zone_id "http_ratelimit") headers
             (Some deploy_rate_limiting.payload)) ∧
  one_shot_write (deploy_dns_sec_settings.update_dnssec_setting zone_id headers)
    (Request PATCH (zone_dnssec zone_id) headers (Some (JObj [("status", JStr "active")]))) ∧
  one_shot_write (deploy_dns_sec_settings.update_zone_setting zone_id headers
                    (api_name s) (friendly_name s) (payload s))
    (Request PATCH (zone_setting zone_id (api_name s)) headers (Some (JObj (payload s)))) ∧
  one_shot_write (deploy_sec_settings.update_page_shield_setting zone_id headers)
    (Request PUT (zone_page_shield zone_id) headers
             (Some deploy_sec_settings.page_shield_payload)) ∧
  one_shot_write (deploy_sec_settings.update_bot_fight_mode zone_id headers)
    (Request PUT (zone_bot_management zone_id) headers
             (Some (JObj [("fight_mode", JBool true)]))) ∧
  one_shot_write (deploy_sec_settings.update_zone_setting zone_id headers
                    (api_name s) (friendly_name s) (payload s))
    (Request PATCH (zone_setting zone_id (api_name s)) headers (Some (JObj (payload s)))) ∧
  one_shot_write (deploy_speed.update_zone_setting zone_id headers
                    (api_name s) (friendly_name s) (payload s))
    (Request PATCH (zone_setting zone_id (api_name s)) headers (Some (JObj (payload s)))).
Proof.
  repeat split; apply one_shot_write_intro; intros R p.
  - apply cache_add_rule_once.
  - apply firewall_add_rule_once.
  - apply rate_limit_once.
  - apply dnssec_once.
  - apply dns_update_zone_once.
  - apply page_shield_once.
  - apply bot_fight_once.
  - apply sec_update_zone_once.
  - apply speed_update_zone_once.
Qed.

(* ===================================================================== *)
(** ** The tally, as the scripts compute it *)
(* ===================================================================== *)

Lemma reported_successes_all (xs : list exchange) :
  Forall (λ x, reported_success (got x) = true) xs → reported_successes xs = length xs.
Proof. induction 1 as [|x xs Hx _ IH]; simpl; [done|]. by rewrite Hx, IH. Qed.

Lemma reported_successes_acceptances (xs : list exchange) :
  Forall (λ x, accepted (got x) = true → reported_success (got x) = true) xs →
  reported_successes xs = acceptances xs.
Proof.
  induction 1 as [|x xs Hx _ IH]; simpl; [done|]. rewrite IH.
  destruct (accepted (got x)) eqn:Ha.
  - by rewrite (Hx eq_refl).
  - destruct (reported_success (got x)) eqn:Hs; [|done].
    apply reported_success_accepted in Hs. congruence.
Qed.

(** X12.  The tally and the exit status of a batch, as the scripts
    compute them.  In every batch run the tally counts, of the [N]
    mutations, those answered with a status outside 400 to 599 and a JSON
    body; the exit status is 0 exactly when every mutation was answered
    so, and 1 otherwise.  When every accepted mutation is answered with a
    JSON body, the tally is [N - k] of [N] for [k] rejections, and the exit
    status is 0 exactly when [k] is 0. *)
Theorem batch_tally_counts_decoded_successes (b : batch_run) :
  is_batch_run b →
  stdout (br_final b)
  = [mkTally (reported_successes (remote_answers b)) (length (br_mutations b))] ∧
  (br_exit b = 0 ∨ br_exit b = 1) ∧
  (br_exit b = 0 ↔ Forall (λ x, reported_success (got x) = true) (remote_answers b)) ∧
  (Forall (λ x, accepted (got x) = true → reported_success (got x) = true)
          (remote_answers b) →
   stdout (br_final b)
   = [mkTally (length (br_mutations b) - rejections (remote_answers b))
              (length (br_mutations b))] ∧
   (br_exit b = 0 ↔ rejections (remote_answers b) = 0%nat)).
Proof.
  intros Hb. apply batch_run_expected in Hb.
  destruct b as [R before muts ex fin]. unfold expected_run in Hb. simpl in Hb.
  injection Hb as -> ->. unfold remote_answers. simpl.
  pose proof (reported_successes_le (converse R before muts)) as Hle.
  pose proof (acceptances_rejections (converse R before muts)) as Hsum.
  rewrite length_converse in Hle, Hsum.
  assert ((if (reported_successes (converse R before muts) <? length muts)%nat
           then 1 else 0) = 0
          ↔ reported_successes (converse R before muts) = length muts) as Hzero.
  { destruct (Nat.ltb_spec (reported_successes (converse R before muts)) (length muts));
      split; try done; lia. }
  split; [done|]. split.
  { destruct (_ <? _)%nat; [by right|by left]. }
  split.
  - rewrite Hzero. split.
    + intros Heq. apply reported_successes_full. by rewrite length_converse.
    + intros Hall. by rewrite (reported_successes_all _ Hall), length_converse.
  - intros Hjson. rewrite Hzero, (reported_successes_acceptances _ Hjson).
    split; [do 2 f_equal; lia|lia].
Qed.

Lemma batch_tally_counts_decoded_successes_witness :
  is_batch_run sample_dns_run ∧
  Forall (λ x, accepted (got x) = true → reported_success (got x) = true)
         (remote_answers sample_dns_run) ∧
  rejections (remote_answers sample_dns_run) = 1%nat ∧
  stdout (br_final sample_dns_run) = [mkTally 5 6] ∧
  br_exit sample_dns_run = 1.
Proof.
  assert (Forall (λ x, accepted (got x) = true → reported_success (got x) = true)
                 (remote_answers sample_dns_run)) as Hjson.
  { repeat constructor; by vm_compute. }
  destruct (batch_tally_counts_decoded_successes sample_dns_run sample_dns_is_batch_run)
    as (_ & _ & _ & Hrest).
  destruct (Hrest Hjson) as [Htally _].
  split; [exact sample_dns_is_batch_run|]. split; [exact Hjson|]. split; [reflexivity|].
  split; [exact Htally|reflexivity].
Defined.
